(** * Build Baron ticket filing: a shallow embedding of [tickets.go]

    The development models the ticket-content pipeline of the Build Baron
    plugin: the test-name normalizer [cleanTestName], the history link
    [historyURL], the summary line [getSummary], the description template
    [DescriptionTemplate] with its renderer [getDescription], and the HTTP
    handler [fileTicket] with its collaborators (user lookup, task lookup,
    JIRA submission, logging and the JSON response).

    Go strings are byte sequences and are modelled by [string]; Go [int]
    indices are modelled by [Z], so that the [-1] of [strings.LastIndex] and
    the arithmetic [len(path)-1] read as in the source.  The map
    [map[string]bool] and the request [map[string]interface{}] are [gmap]s. *)

From Stdlib Require Import ZArith Ascii String List Lia Permutation.
From stdpp Require Import gmap strings list fin_maps.
From Equations Require Import Equations.

Local Open Scope Z_scope.
Set Warnings "-register-all".


(** ** Go runtime and standard library: the fragment used by the source *)

(** [len(s)] for a string. *)
Definition len (s : string) : Z := Z.of_nat (String.length s).

(** [len(xs)] for a slice. *)
Definition lenS {A : Type} (xs : list A) : Z := Z.of_nat (List.length xs).

(** [strings.LastIndex(s, sep)] for a one-byte separator, as the source calls
    it: the index of the last occurrence of [sep] in [s], or [-1]. *)
Fixpoint LastIndex (s : string) (sep : ascii) : Z :=
  match s with
  | EmptyString => -1
  | String c rest =>
      let i := LastIndex rest sep in
      if i =? -1 then (if Ascii.eqb c sep then 0 else -1) else i + 1
  end.

(** The slice expression [s[:hi]]. *)
Definition slice_to (s : string) (hi : Z) : string :=
  substring 0 (Z.to_nat hi) s.

(** The slice expression [s[lo:]]. *)
Definition slice_from (s : string) (lo : Z) : string :=
  substring (Z.to_nat lo) (String.length s - Z.to_nat lo) s.

(** Go panics on a slice expression whose bounds are out of range; the
    checked variants make that outcome explicit. *)
Definition slice_to_chk (s : string) (hi : Z) : option string :=
  if (0 <=? hi) && (hi <=? len s) then Some (slice_to s hi) else None.

Definition slice_from_chk (s : string) (lo : Z) : option string :=
  if (0 <=? lo) && (lo <=? len s) then Some (slice_from s lo) else None.

(** [strings.Join(elems, sep)]. *)
Fixpoint Join (elems : list string) (sep : string) : string :=
  match elems with
  | [] => ""
  | [x] => x
  | x :: rest => x +:+ sep +:+ Join rest sep
  end.

(** What [fmt.Sprintf] appends for operands left over after the format. *)
Definition Sprintf_extra (args : list string) : string :=
  match args with
  | [] => ""
  | _ => "%!(EXTRA " +:+ Join (map (fun a => "string=" +:+ a) args) ", " +:+ ")"
  end.

(** [fmt.Sprintf(format, args...)] for the verb the source uses, [%v], on
    string operands (an [error] operand is printed as its message, which is
    how errors are represented here).  A verb without operand prints
    [%!v(MISSING)]; any other byte is copied. *)
Fixpoint Sprintf (format : string) (args : list string) : string :=
  match format with
  | EmptyString => Sprintf_extra args
  | String c rest =>
      match rest with
      | String d rest' =>
          if Ascii.eqb c "%" && Ascii.eqb d "v" then
            match args with
            | a :: args' => a +:+ Sprintf rest' args'
            | [] => "%!v(MISSING)" +:+ Sprintf rest' []
            end
          else String c (Sprintf rest args)
      | EmptyString => String c (Sprintf rest args)
      end
  end.

(** Whether the byte [c] occurs in [s]. *)
Fixpoint occurs (c : ascii) (s : string) : bool :=
  match s with
  | EmptyString => false
  | String d rest => Ascii.eqb d c || occurs c rest
  end.

(** A function result [(value, error)] with [error != nil] or not. *)
Inductive result (A : Type) : Type :=
| Ok (a : A)
| Err (msg : string).
Arguments Ok {A} a.
Arguments Err {A} msg.

(** ** Collaborator types *)

Module model.
(** Modelled from the spec: the entries of [Task.TestResults] of the
    evergreen [model] package, which is not part of this repository; each
    has a raw identifier and a log URL. *)
Record TestResult : Type := mkTestResult {
  TestFile : string;
  URL : string
}.

(** Modelled from the spec: the [Task] record of the evergreen [model]
    package, restricted to the fields the plugin reads. *)
Record Task : Type := mkTask {
  Id : string;
  DisplayName : string;
  BuildVariant : string;
  Project : string;
  TestResults : list TestResult
}.
End model.

Module user.
(** Modelled from the spec: the acting user returned by
    [plugin.GetUser]; the plugin reads its identifier only. *)
Record DBUser : Type := mkDBUser { Id : string }.
End user.

Module thirdparty.
(** Modelled from the spec: the answer of [CreateTicket], the key of the
    created ticket. *)
Record JiraCreateTicketResponse : Type := mkResponse { Key : string }.
End thirdparty.

Module http.
Definition StatusOK : Z := 200.
Definition StatusBadRequest : Z := 400.
Definition StatusUnauthorized : Z := 401.
Definition StatusNotFound : Z := 404.
Definition StatusInternalServerError : Z := 500.
End http.

Module slogger.
Inductive Level : Type := INFO | ERROR.
End slogger.

(** ** Constants of the plugin *)

Definition FailingTasksField : string := "customfield_12950".

Definition UIRoot : string := "https://evergreen.mongodb.com".

(** jiraTestFailure contains the required fields for generating a failure
    report. *)
Record jiraTestFailure : Type := mkJiraTestFailure {
  Name : string;
  URL : string;
  HistoryURL : string
}.

(** ** The name normalizer *)

Equations? cleanTestName (path : string) : string by wf (String.length path) lt :=
  cleanTestName path :=
    let unixIdx := LastIndex path "/" in
    match Z.eq_dec unixIdx (-1) with
    | right _ =>
        (* if the path ends in a slash, remove it and try again *)
        if unixIdx =? len path - 1
        then cleanTestName (slice_to path (len path - 1))
        else slice_from path (unixIdx + 1)
    | left _ =>
        let windowsIdx := LastIndex path "\" in
        match Z.eq_dec windowsIdx (-1) with
        | right _ =>
            (* if the path ends in a slash, remove it and try again *)
            if windowsIdx =? len path - 1
            then cleanTestName (slice_to path (len path - 1))
            else slice_from path (windowsIdx + 1)
        | left _ => path
        end
    end.
Proof.
  all: assert (Hne : forall s c, LastIndex s c <> -1 -> (0 < String.length s)%nat)
    by (intros [|? ?] ? ?; cbn in *; [congruence | lia]).
  all: assert (Hsub : forall s n, (n <= String.length s)%nat ->
                        String.length (substring 0 n s) = n)
    by (intros s; induction s as [|? ? IH]; intros [|?] ?;
        cbn [substring String.length] in *;
        try reflexivity; try lia; rewrite IH; lia).
  all: match goal with H : ?i <> -1 |- _ => subst i; apply Hne in H end.
  all: unfold slice_to, len; rewrite Hsub; lia.
Qed.

(** The same function as a step-indexed interpreter that also checks every
    slice expression: [OutOfFuel] when the recursion is deeper than [fuel],
    [Panic] when a slice bound is out of range. *)
Inductive outcome : Type :=
| Returned (r : string)
| Panic
| OutOfFuel.

Fixpoint cleanTestName_run (fuel : nat) (path : string) : outcome :=
  match fuel with
  | O => OutOfFuel
  | S fuel' =>
      let unixIdx := LastIndex path "/" in
      if negb (unixIdx =? -1) then
        if unixIdx =? len path - 1 then
          match slice_to_chk path (len path - 1) with
          | Some p => cleanTestName_run fuel' p
          | None => Panic
          end
        else
          match slice_from_chk path (unixIdx + 1) with
          | Some r => Returned r
          | None => Panic
          end
      else
        let windowsIdx := LastIndex path "\" in
        if negb (windowsIdx =? -1) then
          if windowsIdx =? len path - 1 then
            match slice_to_chk path (len path - 1) with
            | Some p => cleanTestName_run fuel' p
            | None => Panic
            end
          else
            match slice_from_chk path (windowsIdx + 1) with
            | Some r => Returned r
            | None => Panic
            end
        else Returned path
  end.

(** The argument of the recursive call [cleanTestName] makes on [path], if
    it makes one. *)
Definition cleanTestName_callee (path : string) : option string :=
  let unixIdx := LastIndex path "/" in
  if negb (unixIdx =? -1) then
    if unixIdx =? len path - 1 then Some (slice_to path (len path - 1)) else None
  else
    let windowsIdx := LastIndex path "\" in
    if negb (windowsIdx =? -1) then
      if windowsIdx =? len path - 1 then Some (slice_to path (len path - 1)) else None
    else None.

(** The normalizer as the specification words it: split after the rightmost
    forward-slash unless it is the final byte, in which case strip it and
    retry; only without any forward-slash do the same for the backslash;
    with neither delimiter return the input. *)
Inductive normalizes : string -> string -> Prop :=
| norm_slash_inner (p r : string) :
    occurs "/" r = false -> r <> "" ->
    normalizes (p +:+ "/" +:+ r) r
| norm_slash_final (p r : string) :
    normalizes p r ->
    normalizes (p +:+ "/") r
| norm_backslash_inner (p r : string) :
    occurs "/" (p +:+ "\" +:+ r) = false ->
    occurs "\" r = false -> r <> "" ->
    normalizes (p +:+ "\" +:+ r) r
| norm_backslash_final (p r : string) :
    occurs "/" p = false ->
    normalizes p r ->
    normalizes (p +:+ "\") r
| norm_plain (s : string) :
    occurs "/" s = false -> occurs "\" s = false ->
    normalizes s s.

(** ** History link and summary *)

Definition historyURL (t : model.Task) (testName : string) : string :=
  Sprintf "%v/task_history/%v/%v#%v=fail"
    [UIRoot; model.Project t; model.DisplayName t; testName].

Definition getSummary (taskName : string) (tests : list jiraTestFailure) : string :=
  if lenS tests =? 0 then
    (* this is likely a compile failure *)
    Sprintf "%v failure" [taskName]
  else if lenS tests >? 4 then
    (* if there are many failures, just squish the summary *)
    Sprintf "%v failures" [taskName]
  else
    let names := fold_left (fun names t => names ++ [Name t]) tests [] in
    Join names ", ".

(** ** The template engine: the fragment of [text/template] the plugin uses

    Text is copied; an action [{{.A.B}}] prints a field of the current
    value; [{{range .A}} ... {{end}}] renders its body once per element.
    [text/template] does no escaping. *)

Inductive Token : Type :=
| TokText (s : string)
| TokAction (s : string).

Definition emitText (acc : string) (toks : list Token) : list Token :=
  match acc with
  | EmptyString => toks
  | _ => TokText acc :: toks
  end.

(** The lexer: text up to the left delimiter, an action up to the right
    one.  [acc] holds the bytes of the item being read. *)
Fixpoint lex (s : string) (inAction : bool) (acc : string) : result (list Token) :=
  match s with
  | EmptyString => if inAction then Err "unclosed action" else Ok (emitText acc [])
  | String c rest =>
      match rest with
      | String d rest' =>
          if negb inAction && Ascii.eqb c "{" && Ascii.eqb d "{" then
            match lex rest' true "" with
            | Ok toks => Ok (emitText acc toks)
            | Err e => Err e
            end
          else if inAction && Ascii.eqb c "}" && Ascii.eqb d "}" then
            match lex rest' false "" with
            | Ok toks => Ok (TokAction acc :: toks)
            | Err e => Err e
            end
          else lex rest inAction (acc +:+ String c "")
      | EmptyString => lex rest inAction (acc +:+ String c "")
      end
  end.

Fixpoint trimLeft (s : string) : string :=
  match s with
  | String c rest => if Ascii.eqb c " " then trimLeft rest else s
  | EmptyString => s
  end.

Fixpoint trimRight (s : string) : string :=
  match s with
  | EmptyString => ""
  | String c rest =>
      match trimRight rest with
      | EmptyString => if Ascii.eqb c " " then "" else String c ""
      | r => String c r
      end
  end.

Fixpoint splitOn (sep : ascii) (s : string) (cur : string) : list string :=
  match s with
  | EmptyString => [cur]
  | String c rest =>
      if Ascii.eqb c sep then cur :: splitOn sep rest ""
      else splitOn sep rest (cur +:+ String c "")
  end.

Definition isAlphaNumeric (c : ascii) : bool :=
  let n := Z.of_N (N_of_ascii c) in
  ((65 <=? n) && (n <=? 90)) || ((97 <=? n) && (n <=? 122))
  || ((48 <=? n) && (n <=? 57)) || (n =? 95).

Fixpoint allChars (f : ascii -> bool) (s : string) : bool :=
  match s with
  | EmptyString => true
  | String c rest => f c && allChars f rest
  end.

Definition isIdentifier (s : string) : bool :=
  match s with
  | EmptyString => false
  | _ => allChars isAlphaNumeric s
  end.

(** A field chain [.A.B.C]; a lone [.] is the current value. *)
Definition parseField (s : string) : option (list string) :=
  match s with
  | String c rest =>
      if Ascii.eqb c "." then
        match rest with
        | EmptyString => Some []
        | _ =>
            let parts := splitOn "." rest "" in
            if forallb isIdentifier parts then Some parts else None
        end
      else None
  | EmptyString => None
  end.

Inductive Action : Type :=
| AField (chain : list string)
| ARange (chain : list string)
| AEnd
| ABad.

Definition parseAction (a : string) : Action :=
  let a := trimRight (trimLeft a) in
  if String.eqb a "end" then AEnd
  else if String.prefix "range " a then
    match parseField (trimLeft (substring 6 (String.length a - 6) a)) with
    | Some chain => ARange chain
    | None => ABad
    end
  else
    match parseField a with
    | Some chain => AField chain
    | None => ABad
    end.

Inductive Node : Type :=
| TextNode (text : string)
| ActionNode (chain : list string)
| RangeNode (chain : list string) (body : list Node).

(** A parsed template is its list of top-level nodes. *)
Definition Template : Type := list Node.

(** The parser: [cur] holds the nodes of the list being read, most recent
    first; [stack] holds the enclosing [range] actions with the nodes that
    precede them. *)
Fixpoint parseTokens (toks : list Token) (cur : list Node)
    (stack : list (list string * list Node)) : result Template :=
  match toks with
  | [] =>
      match stack with
      | [] => Ok (rev cur)
      | _ => Err "unexpected EOF"
      end
  | TokText s :: toks' => parseTokens toks' (TextNode s :: cur) stack
  | TokAction a :: toks' =>
      match parseAction a with
      | AField chain => parseTokens toks' (ActionNode chain :: cur) stack
      | ARange chain => parseTokens toks' [] ((chain, cur) :: stack)
      | AEnd =>
          match stack with
          | (chain, outer) :: stack' =>
              parseTokens toks' (RangeNode chain (rev cur) :: outer) stack'
          | [] => Err "unexpected {{end}}"
          end
      | ABad => Err ("unsupported action " +:+ a)
      end
  end.

(** [template.New(name).Parse(text)]. *)
Definition Parse (text : string) : result Template :=
  match lex text false "" with
  | Ok toks => parseTokens toks [] []
  | Err e => Err e
  end.

(** The data a template is executed on. *)
Inductive Value : Type :=
| VString (s : string)
| VStruct (fields : list (string * Value))
| VSlice (elems : list Value)
| VPtr (target : option Value).

Fixpoint lookupField (name : string) (fields : list (string * Value)) : option Value :=
  match fields with
  | [] => None
  | (k, v) :: rest => if String.eqb k name then Some v else lookupField name rest
  end.

(** Pointers are followed; a nil pointer is an execution error. *)
Definition indirect (v : Value) : result Value :=
  match v with
  | VPtr (Some target) => Ok target
  | VPtr None => Err "nil pointer evaluating"
  | _ => Ok v
  end.

Fixpoint evalField (chain : list string) (dot : Value) : result Value :=
  match chain with
  | [] => Ok dot
  | name :: rest =>
      match indirect dot with
      | Ok (VStruct fields) =>
          match lookupField name fields with
          | Some v => evalField rest v
          | None => Err ("can't evaluate field " +:+ name)
          end
      | Ok _ => Err ("can't evaluate field " +:+ name)
      | Err e => Err e
      end
  end.

(** Printing an action's value.  The plugin's template prints strings only;
    printing of other values is outside the modelled fragment and reported
    as an error of the model. *)
Definition printValue (v : Value) : result string :=
  match v with
  | VString s => Ok s
  | _ => Err "unsupported value"
  end.

(** Run [f] on each element in order and concatenate the outputs, stopping
    at the first error. *)
Definition walkAll {A : Type} (f : A -> result string) : list A -> result string :=
  fix go (xs : list A) : result string :=
    match xs with
    | [] => Ok ""
    | x :: rest =>
        match f x with
        | Ok a =>
            match go rest with
            | Ok b => Ok (a +:+ b)
            | Err e => Err e
            end
        | Err e => Err e
        end
    end.

Fixpoint execNode (n : Node) (dot : Value) {struct n} : result string :=
  match n with
  | TextNode text => Ok text
  | ActionNode chain =>
      match evalField chain dot with
      | Ok v => printValue v
      | Err e => Err e
      end
  | RangeNode chain body =>
      match evalField chain dot with
      | Ok v =>
          match indirect v with
          | Ok (VSlice elems) =>
              walkAll (fun elem => walkAll (fun n' => execNode n' elem) body) elems
          | Ok _ => Err "range can't iterate over value"
          | Err e => Err e
          end
      | Err e => Err e
      end
  end.

(** [tmpl.Execute(buf, data)] followed by [buf.String()]. *)
Definition Execute (tmpl : Template) (data : Value) : result string :=
  walkAll (fun n => execNode n data) tmpl.

(** ** The description *)

Definition DescriptionTemplateString : string := "
h2. [{{.Task.DisplayName}} failed on {{.Task.BuildVariant}}|" +:+ UIRoot +:+ "/task/{{.Task.Id}}]

{{range .Tests}}*{{.Name}}* - [Logs|{{.URL}}] | [History|{{.HistoryURL}}]

{{end}}



~BF Ticket Generated by [~{{.UserId}}]~
".

(** [template.Must] panics when parsing failed; [DescriptionTemplate_parsed]
    below shows that it does not. *)
Definition Must (r : result Template) : Template :=
  match r with
  | Ok t => t
  | Err _ => []
  end.

Definition DescriptionTemplate : Template :=
  Eval vm_compute in Must (Parse DescriptionTemplateString).

Definition testResultValue (r : model.TestResult) : Value :=
  VStruct [("TestFile", VString (model.TestFile r)); ("URL", VString (model.URL r))].

Definition taskValue (t : model.Task) : Value :=
  VStruct [("Id", VString (model.Id t));
           ("DisplayName", VString (model.DisplayName t));
           ("BuildVariant", VString (model.BuildVariant t));
           ("Project", VString (model.Project t));
           ("TestResults", VSlice (map testResultValue (model.TestResults t)))].

Definition failureValue (f : jiraTestFailure) : Value :=
  VStruct [("Name", VString (Name f)); ("URL", VString (URL f));
           ("HistoryURL", VString (HistoryURL f))].

(** [getDescription] reads the package variable [DescriptionTemplate]; the
    variable is the parameter [tmpl]. *)
Definition getDescription (tmpl : Template) (t : model.Task) (userId : string)
    (tests : list jiraTestFailure) : result string :=
  let args := VStruct [("Task", VPtr (Some (taskValue t)));
                       ("UserId", VString userId);
                       ("Tests", VSlice (map failureValue tests))] in
  match Execute tmpl args with
  | Err err => Err err
  | Ok out => Ok out
  end.

(** The rendered document as the specification words it: a heading that
    links the task's display name and build variant to
    [<UIRoot>/task/<TaskId>], one line per failing test, and a closing
    attribution line. *)
Definition nl : string := String (ascii_of_nat 10) "".

Definition headingLine (t : model.Task) : string :=
  "h2. [" +:+ model.DisplayName t +:+ " failed on " +:+ model.BuildVariant t
  +:+ "|" +:+ UIRoot +:+ "/task/" +:+ model.Id t +:+ "]".

Definition testLine (f : jiraTestFailure) : string :=
  "*" +:+ Name f +:+ "* - [Logs|" +:+ URL f +:+ "] | [History|"
  +:+ HistoryURL f +:+ "]".

Definition attributionLine (userId : string) : string :=
  "~BF Ticket Generated by [~" +:+ userId +:+ "]~".

(** Each of [parts] followed by a blank line. *)
Fixpoint paragraphs (parts : list string) : string :=
  match parts with
  | [] => ""
  | p :: rest => p +:+ nl +:+ nl +:+ paragraphs rest
  end.

(** ** The handler *)

(** A value of the JIRA request, a [map[string]interface{}]: the source
    stores strings, string slices and string maps. *)
Inductive JiraValue : Type :=
| JString (s : string)
| JStrings (elems : list string)
| JMap (m : gmap string string).

(** The decoded request body. *)
Record ticketInput : Type := mkInput {
  TaskId : string;
  TestIds : list string
}.

Record bbPluginOptions : Type := mkOptions {
  Host : string;
  Username : string;
  Password : string
}.

Record BuildBaronPlugin : Type := mkPlugin { opts : bbPluginOptions }.

(** The value handed to [plugin.WriteJSON]. *)
Inductive Body : Type :=
| BodyString (s : string)
| BodyTicket (r : thirdparty.JiraCreateTicketResponse).

(** A handler is a tree of calls to its collaborators: each node is one
    call with its arguments, each branch one answer.
    - [GetUser]: [plugin.GetUser(r)], nil or a user;
    - [FindTask]: [model.FindTask(id)], the pair [(t, err)];
    - [Logf]: [evergreen.Logger.Logf(level, format)];
    - [CreateTicket]: [thirdparty.NewJiraHandler(host, username,
      password).CreateTicket(request)];
    - [WriteJSON]: [plugin.WriteJSON(w, status, body)];
    - [Return]: the handler returns. *)
Inductive Handler : Type :=
| Return
| GetUser (k : option user.DBUser -> Handler)
| FindTask (taskId : string) (k : option model.Task -> option string -> Handler)
| Logf (level : slogger.Level) (format : string) (k : Handler)
| CreateTicket (host username password : string)
    (request : gmap string JiraValue)
    (k : result thirdparty.JiraCreateTicketResponse -> Handler)
| WriteJSON (status : Z) (body : Body) (k : Handler).

(** The membership map built from the selected test identifiers. *)
Definition testIdSet (TestIds : list string) : gmap string bool :=
  fold_left (fun testIds testId => <[testId := true]> testIds) TestIds ∅.

(** build a list of all failed tests to include; reading a missing key of a
    [map[string]bool] yields [false]. *)
Definition failedTests (t : model.Task) (testIds : gmap string bool)
    : list jiraTestFailure :=
  fold_left
    (fun tests test =>
       if default false (testIds !! model.TestFile test) then
         tests ++ [ {| Name := cleanTestName (model.TestFile test);
                       URL := model.URL test;
                       HistoryURL := historyURL t (cleanTestName (model.TestFile test)) |} ]
       else tests)
    (model.TestResults t) [].

(** fileTicket creates a JIRA ticket for a task with the given test
    failures. *)
Definition fileTicket (bbp : BuildBaronPlugin) (tmpl : Template)
    (input : ticketInput) : Handler :=
  (* grab the task and user info to fill out the ticket *)
  GetUser (fun u =>
  match u with
  | None =>
      WriteJSON http.StatusUnauthorized
        (BodyString "must be logged in to file a ticket") Return
  | Some u =>
  FindTask (TaskId input) (fun t err =>
  match err with
  | Some err => WriteJSON http.StatusInternalServerError (BodyString err) Return
  | None =>
  match t with
  | None =>
      WriteJSON http.StatusNotFound
        (BodyString (Sprintf "task not found for id %v" [TaskId input])) Return
  | Some t =>
      let testIds := testIdSet (TestIds input) in
      let tests := failedTests t testIds in
      (* lay out the JIRA API request *)
      let request : gmap string JiraValue := ∅ in
      let request := <["project" := JMap {["key" := "BF"]}]> request in
      let request := <["summary" := JString (getSummary (model.DisplayName t) tests)]> request in
      let request := <[FailingTasksField := JStrings [model.DisplayName t]]> request in
      let request := <["issuetype" := JMap {["name" := "Build Failure"]}]> request in
      let request := <["assignee" := JMap {["name" := user.Id u]}]> request in
      let request := <["reporter" := JMap {["name" := user.Id u]}]> request in
      match getDescription tmpl t (user.Id u) tests with
      | Err err =>
          WriteJSON http.StatusBadRequest
            (BodyString (Sprintf "error creating description: %v" [err])) Return
      | Ok description =>
          let request := <["description" := JString description]> request in
          Logf slogger.INFO (Sprintf "Creating JIRA ticket for user %v" [user.Id u])
          (CreateTicket (Host (opts bbp)) (Username (opts bbp)) (Password (opts bbp))
             request (fun res =>
          match res with
          | Err err =>
              let msg := Sprintf "error creating JIRA ticket: %v" [err] in
              Logf slogger.ERROR msg
              (WriteJSON http.StatusBadRequest (BodyString msg) Return)
          | Ok result =>
              Logf slogger.INFO
                (Sprintf "Ticket %v successfully created" [thirdparty.Key result])
              (WriteJSON http.StatusOK (BodyTicket result) Return)
          end))
      end
  end end) end).

(** One collaborator call together with its answer. *)
Inductive Event : Type :=
| EvGetUser (u : option user.DBUser)
| EvFindTask (taskId : string) (t : option model.Task) (err : option string)
| EvLogf (level : slogger.Level) (format : string)
| EvCreateTicket (host username password : string)
    (request : gmap string JiraValue)
    (res : result thirdparty.JiraCreateTicketResponse)
| EvWriteJSON (status : Z) (body : Body).

(** [runs h tr]: the handler [h] can perform the calls [tr], in that order,
    and then return; the collaborators may answer anything. *)
Inductive runs : Handler -> list Event -> Prop :=
| runs_Return : runs Return []
| runs_GetUser k u tr :
    runs (k u) tr -> runs (GetUser k) (EvGetUser u :: tr)
| runs_FindTask taskId k t err tr :
    runs (k t err) tr -> runs (FindTask taskId k) (EvFindTask taskId t err :: tr)
| runs_Logf level format k tr :
    runs k tr -> runs (Logf level format k) (EvLogf level format :: tr)
| runs_CreateTicket host username password request k res tr :
    runs (k res) tr ->
    runs (CreateTicket host username password request k)
         (EvCreateTicket host username password request res :: tr)
| runs_WriteJSON status body k tr :
    runs k tr -> runs (WriteJSON status body k) (EvWriteJSON status body :: tr).

(** Collaborators that answer by fixed functions, to run a handler. *)
Record World : Type := mkWorld {
  currentUser : option user.DBUser;
  findTask : string -> option model.Task * option string;
  createTicket : string -> string -> string -> gmap string JiraValue ->
                 result thirdparty.JiraCreateTicketResponse
}.

Fixpoint run (w : World) (h : Handler) : list Event :=
  match h with
  | Return => []
  | GetUser k => EvGetUser (currentUser w) :: run w (k (currentUser w))
  | FindTask taskId k =>
      let '(t, err) := findTask w taskId in
      EvFindTask taskId t err :: run w (k t err)
  | Logf level format k => EvLogf level format :: run w k
  | CreateTicket host username password request k =>
      let res := createTicket w host username password request in
      EvCreateTicket host username password request res :: run w (k res)
  | WriteJSON status body k => EvWriteJSON status body :: run w k
  end.

Definition isCreateTicket (e : Event) : bool :=
  match e with EvCreateTicket _ _ _ _ _ => true | _ => false end.

Definition isFindTask (e : Event) : bool :=
  match e with EvFindTask _ _ _ => true | _ => false end.

Definition isGetUser (e : Event) : bool :=
  match e with EvGetUser _ => true | _ => false end.

Definition isWriteJSON (e : Event) : bool :=
  match e with EvWriteJSON _ _ => true | _ => false end.

(** How many calls of one kind a trace holds. *)
Definition calls (kind : Event -> bool) (tr : list Event) : nat :=
  List.length (List.filter kind tr).

(** The failure detail of one test result as the specification words it:
    the normalized name, the recorded URL and the synthesized history
    URL. *)
Definition failureDetail (t : model.Task) (test : model.TestResult)
    : jiraTestFailure :=
  {| Name := cleanTestName (model.TestFile test);
     URL := model.URL test;
     HistoryURL := historyURL t (cleanTestName (model.TestFile test)) |}.

(** The fields of the ticket request as the specification lists them. *)
Definition ticketFields (t : model.Task) (u : user.DBUser)
    (summary description : string) : list (string * JiraValue) :=
  [("project", JMap {["key" := "BF"]});
   ("summary", JString summary);
   ("customfield_12950", JStrings [model.DisplayName t]);
   ("issuetype", JMap {["name" := "Build Failure"]});
   ("assignee", JMap {["name" := user.Id u]});
   ("reporter", JMap {["name" := user.Id u]});
   ("description", JString description)].

(** The outcomes of one invocation as the specification's error taxonomy
    names them, each with the calls it consists of. *)
Inductive filing (bbp : BuildBaronPlugin) (tmpl : Template) (input : ticketInput)
    : list Event -> Prop :=
| NotAuthenticated :
    filing bbp tmpl input
      [EvGetUser None;
       EvWriteJSON http.StatusUnauthorized
         (BodyString "must be logged in to file a ticket")]
| LookupFailure (u : user.DBUser) (t : option model.Task) (err : string) :
    filing bbp tmpl input
      [EvGetUser (Some u);
       EvFindTask (TaskId input) t (Some err);
       EvWriteJSON http.StatusInternalServerError (BodyString err)]
| TaskNotFound (u : user.DBUser) :
    filing bbp tmpl input
      [EvGetUser (Some u);
       EvFindTask (TaskId input) None None;
       EvWriteJSON http.StatusNotFound
         (BodyString (Sprintf "task not found for id %v" [TaskId input]))]
| RenderFailure (u : user.DBUser) (t : model.Task) (err : string) :
    getDescription tmpl t (user.Id u) (failedTests t (testIdSet (TestIds input)))
    = Err err ->
    filing bbp tmpl input
      [EvGetUser (Some u);
       EvFindTask (TaskId input) (Some t) None;
       EvWriteJSON http.StatusBadRequest
         (BodyString (Sprintf "error creating description: %v" [err]))]
| SubmissionFailure (u : user.DBUser) (t : model.Task) (description err : string) :
    getDescription tmpl t (user.Id u) (failedTests t (testIdSet (TestIds input)))
    = Ok description ->
    filing bbp tmpl input
      [EvGetUser (Some u);
       EvFindTask (TaskId input) (Some t) None;
       EvLogf slogger.INFO (Sprintf "Creating JIRA ticket for user %v" [user.Id u]);
       EvCreateTicket (Host (opts bbp)) (Username (opts bbp)) (Password (opts bbp))
         (list_to_map
            (ticketFields t u
               (getSummary (model.DisplayName t)
                  (failedTests t (testIdSet (TestIds input))))
               description))
         (Err err);
       EvLogf slogger.ERROR (Sprintf "error creating JIRA ticket: %v" [err]);
       EvWriteJSON http.StatusBadRequest
         (BodyString (Sprintf "error creating JIRA ticket: %v" [err]))]
| Filed (u : user.DBUser) (t : model.Task) (description : string)
    (result : thirdparty.JiraCreateTicketResponse) :
    getDescription tmpl t (user.Id u) (failedTests t (testIdSet (TestIds input)))
    = Ok description ->
    filing bbp tmpl input
      [EvGetUser (Some u);
       EvFindTask (TaskId input) (Some t) None;
       EvLogf slogger.INFO (Sprintf "Creating JIRA ticket for user %v" [user.Id u]);
       EvCreateTicket (Host (opts bbp)) (Username (opts bbp)) (Password (opts bbp))
         (list_to_map
            (ticketFields t u
               (getSummary (model.DisplayName t)
                  (failedTests t (testIdSet (TestIds input))))
               description))
         (Ok result);
       EvLogf slogger.INFO
         (Sprintf "Ticket %v successfully created" [thirdparty.Key result]);
       EvWriteJSON http.StatusOK (BodyTicket result)].

(** The two path delimiters the normalizer knows. *)
Definition isDelimiter (c : ascii) : bool :=
  Ascii.eqb c "/" || Ascii.eqb c "\".

(** The string of [n] bytes [c]. *)
Fixpoint repeatByte (c : ascii) (n : nat) : string :=
  match n with
  | O => ""
  | S n' => String c (repeatByte c n')
  end.

(** * Properties *)

(** ** Strings, indices and slices *)

#[local] Arguments String.append !_ _ / : simpl nomatch.

Section StringFacts.

Lemma len_nonneg (s : string) : 0 <= len s.
Proof. unfold len. lia. Qed.

Lemma length_app (p q : string) :
  String.length (p +:+ q) = (String.length p + String.length q)%nat.
Proof.
  induction p as [|c p IH]; cbn [append String.length Nat.add];
    [reflexivity | now rewrite IH].
Qed.

Lemma len_app (p q : string) : len (p +:+ q) = len p + len q.
Proof. unfold len. rewrite length_app. lia. Qed.

Lemma len_String (c : ascii) (s : string) : len (String c s) = 1 + len s.
Proof. unfold len. cbn [String.length]. lia. Qed.

Lemma len_empty_inv (s : string) : len s = 0 -> s = "".
Proof. destruct s; [reflexivity | rewrite len_String; pose proof (len_nonneg s); lia]. Qed.

Lemma app_assoc_string (p q r : string) : (p +:+ q) +:+ r = p +:+ (q +:+ r).
Proof. induction p as [|c p IH]; cbn [append]; [reflexivity | now rewrite IH]. Qed.

Lemma occurs_app (c : ascii) (p q : string) :
  occurs c (p +:+ q) = occurs c p || occurs c q.
Proof.
  induction p as [|d p IH]; cbn [append occurs]; [reflexivity|].
  rewrite IH. now rewrite orb_assoc.
Qed.

Lemma LastIndex_bounds (s : string) (c : ascii) :
  LastIndex s c <> -1 -> 0 <= LastIndex s c < len s.
Proof.
  induction s as [|d s IH]; cbn [LastIndex]; [congruence|].
  rewrite len_String. pose proof (len_nonneg s).
  destruct (Z.eqb_spec (LastIndex s c) (-1)) as [E|E].
  - destruct (Ascii.eqb d c); [lia | congruence].
  - intros _. specialize (IH E). lia.
Qed.

Lemma LastIndex_none (s : string) (c : ascii) :
  LastIndex s c = -1 <-> occurs c s = false.
Proof.
  induction s as [|d s IH]; cbn [LastIndex occurs]; [tauto|].
  destruct (Z.eqb_spec (LastIndex s c) (-1)) as [E|E].
  - apply IH in E as ->. rewrite orb_false_r.
    destruct (Ascii.eqb d c); [split; discriminate | tauto].
  - pose proof (LastIndex_bounds s c E).
    split; [lia|]. intros [_ H']%orb_false_elim. apply IH in H'. contradiction.
Qed.

(** The last occurrence splits the string. *)
Lemma LastIndex_app (p r : string) (c : ascii) :
  occurs c r = false -> LastIndex (p +:+ String c r) c = len p.
Proof.
  intros Hr. induction p as [|d p IH]; cbn [append LastIndex].
  - apply LastIndex_none in Hr as ->. cbn. now rewrite Ascii.eqb_refl.
  - rewrite IH, len_String. pose proof (len_nonneg p).
    destruct (Z.eqb_spec (len p) (-1)); lia.
Qed.

Lemma occurs_split (s : string) (c : ascii) :
  occurs c s = true ->
  exists p r, s = p +:+ String c r /\ occurs c r = false.
Proof.
  induction s as [|d s IH]; cbn [occurs]; [discriminate|].
  intros H. destruct (occurs c s) eqn:Hs.
  - destruct (IH eq_refl) as (p & r & -> & Hr).
    exists (String d p), r. split; [reflexivity | assumption].
  - rewrite orb_false_r in H. apply Ascii.eqb_eq in H as ->.
    exists "", s. split; [reflexivity | assumption].
Qed.

Lemma substring_0_0 (s : string) : substring 0 0 s = "".
Proof. destruct s; reflexivity. Qed.

Lemma substring_0_length (s : string) : substring 0 (String.length s) s = s.
Proof.
  induction s as [|c s IH]; cbn [substring String.length];
    [reflexivity | now rewrite IH].
Qed.

Lemma substring_0_app (p q : string) : substring 0 (String.length p) (p +:+ q) = p.
Proof.
  induction p as [|c p IH]; cbn [append substring String.length];
    [apply substring_0_0 | now rewrite IH].
Qed.

Lemma substring_skip_app (p q : string) (n : nat) :
  substring (String.length p) n (p +:+ q) = substring 0 n q.
Proof.
  induction p as [|c p IH]; cbn [append substring String.length];
    [reflexivity | apply IH].
Qed.

Lemma slice_to_app (p q : string) : slice_to (p +:+ q) (len p) = p.
Proof. unfold slice_to, len. rewrite Nat2Z.id. apply substring_0_app. Qed.

Lemma slice_from_app (p q : string) : slice_from (p +:+ q) (len p) = q.
Proof.
  unfold slice_from, len. rewrite Nat2Z.id, substring_skip_app, length_app.
  replace (String.length p + String.length q - String.length p)%nat
    with (String.length q) by lia.
  apply substring_0_length.
Qed.

Lemma slice_from_app_String (p r : string) (c : ascii) :
  slice_from (p +:+ String c r) (len p + 1) = r.
Proof.
  replace (p +:+ String c r) with ((p +:+ String c "") +:+ r)
    by (now rewrite app_assoc_string).
  replace (len p + 1) with (len (p +:+ String c ""))
    by (rewrite len_app, len_String; reflexivity).
  apply slice_from_app.
Qed.

Lemma length_slice_to (s : string) (hi : Z) :
  0 <= hi <= len s -> len (slice_to s hi) = hi.
Proof.
  unfold slice_to, len. intros H.
  assert (Hn : (Z.to_nat hi <= String.length s)%nat) by lia.
  enough (E : String.length (substring 0 (Z.to_nat hi) s) = Z.to_nat hi) by lia.
  revert Hn. generalize (Z.to_nat hi). clear H.
  induction s as [|c s IH]; intros [|n] Hn; cbn [substring String.length] in *;
    try reflexivity; try lia.
  rewrite IH; lia.
Qed.

End StringFacts.

(** ** The name normalizer *)

Section Normalizer.

(** The defining equation, with the decisions as boolean tests. *)
Lemma cleanTestName_body (path : string) :
  cleanTestName path =
  if negb (LastIndex path "/" =? -1) then
    if LastIndex path "/" =? len path - 1
    then cleanTestName (slice_to path (len path - 1))
    else slice_from path (LastIndex path "/" + 1)
  else if negb (LastIndex path "\" =? -1) then
    if LastIndex path "\" =? len path - 1
    then cleanTestName (slice_to path (len path - 1))
    else slice_from path (LastIndex path "\" + 1)
  else path.
Proof.
  etransitivity; [apply cleanTestName_equation_1|]. cbv zeta.
  destruct (Z.eq_dec (LastIndex path "/") (-1)) as [E|E].
  - rewrite E. cbn [Z.eqb negb Pos.eqb].
    destruct (Z.eq_dec (LastIndex path "\") (-1)) as [E'|E'].
    + rewrite E'. reflexivity.
    + apply Z.eqb_neq in E' as ->. reflexivity.
  - apply Z.eqb_neq in E as ->. reflexivity.
Qed.

(** A delimiter in final position is stripped and the rest normalized. *)
Lemma cleanTestName_final (p : string) (c : ascii) :
  (c = "/"%char \/ (c = "\"%char /\ occurs "/" p = false)) ->
  cleanTestName (p +:+ String c "") = cleanTestName p.
Proof.
  intros Hc. rewrite cleanTestName_body.
  assert (Hlen : len (p +:+ String c "") - 1 = len p)
    by (rewrite len_app, len_String; unfold len; cbn; lia).
  assert (Hidx : LastIndex (p +:+ String c "") c = len p)
    by (now apply LastIndex_app).
  rewrite Hlen, slice_to_app. pose proof (len_nonneg p).
  destruct Hc as [-> | [-> Hp]].
  - rewrite Hidx, Z.eqb_refl.
    destruct (Z.eqb_spec (len p) (-1)); [lia | reflexivity].
  - assert (Hno : LastIndex (p +:+ String "\" "") "/" = -1).
    { apply LastIndex_none. rewrite occurs_app, Hp. reflexivity. }
    rewrite Hno, Hidx, !Z.eqb_refl. cbn [negb].
    destruct (Z.eqb_spec (len p) (-1)); [lia | reflexivity].
Qed.

(** A delimiter followed by a non-empty segment without that delimiter:
    the segment is the result. *)
Lemma cleanTestName_inner (p r : string) (c : ascii) :
  (c = "/"%char \/ (c = "\"%char /\ occurs "/" (p +:+ String c r) = false)) ->
  occurs c r = false -> r <> "" ->
  cleanTestName (p +:+ String c r) = r.
Proof.
  intros Hc Hr Hne. rewrite cleanTestName_body.
  assert (Hidx : LastIndex (p +:+ String c r) c = len p)
    by (now apply LastIndex_app).
  assert (Hlen : len p <> len (p +:+ String c r) - 1).
  { rewrite len_app, len_String. intros E.
    apply Hne, len_empty_inv. lia. }
  pose proof (len_nonneg p).
  destruct Hc as [-> | [-> Hp]].
  - rewrite Hidx. apply Z.eqb_neq in Hlen as ->.
    destruct (Z.eqb_spec (len p) (-1)); [lia|]. cbn [negb].
    apply slice_from_app_String.
  - apply LastIndex_none in Hp. rewrite Hp, Hidx. cbn [Z.eqb negb Pos.eqb].
    apply Z.eqb_neq in Hlen as ->.
    destruct (Z.eqb_spec (len p) (-1)); [lia|]. cbn [negb].
    apply slice_from_app_String.
Qed.

Lemma cleanTestName_plain (s : string) :
  occurs "/" s = false -> occurs "\" s = false -> cleanTestName s = s.
Proof.
  intros H1%LastIndex_none H2%LastIndex_none.
  rewrite cleanTestName_body, H1, H2. reflexivity.
Qed.

(** The specification's algorithm determines the code's result. *)
Lemma normalizes_cleanTestName (s r : string) :
  normalizes s r -> cleanTestName s = r.
Proof.
  induction 1 as [p r Hr Hne | p r _ IH | p r Hp Hr Hne | p r Hp _ IH | s H1 H2].
  - apply cleanTestName_inner; auto.
  - rewrite cleanTestName_final; auto.
  - apply cleanTestName_inner; auto.
  - rewrite cleanTestName_final; auto.
  - now apply cleanTestName_plain.
Qed.

(** Every string is covered by one rule of the specification. *)
Lemma normalizes_total (s : string) : exists r, normalizes s r.
Proof.
  remember (String.length s) as n eqn:Hn. revert s Hn.
  induction n as [n IH] using lt_wf_ind. intros s ->.
  destruct (occurs "/" s) eqn:Hs.
  - destruct (occurs_split _ _ Hs) as (p & r & -> & Hr).
    destruct r as [|d r].
    + destruct (IH (String.length p)) with (s := p) as [r' Hr'];
        [rewrite length_app; cbn; lia | reflexivity |].
      exists r'. now apply norm_slash_final.
    + exists (String d r). now apply norm_slash_inner.
  - destruct (occurs "\" s) eqn:Hb.
    + destruct (occurs_split _ _ Hb) as (p & r & -> & Hr).
      destruct r as [|d r].
      * destruct (IH (String.length p)) with (s := p) as [r' Hr'];
          [rewrite length_app; cbn; lia | reflexivity |].
        exists r'. apply norm_backslash_final; [|assumption].
        rewrite occurs_app in Hs. now apply orb_false_elim in Hs.
      * exists (String d r). now apply norm_backslash_inner.
    + exists s. now apply norm_plain.
Qed.

Lemma cleanTestName_normalizes (s : string) : normalizes s (cleanTestName s).
Proof.
  destruct (normalizes_total s) as [r Hr].
  now rewrite (normalizes_cleanTestName _ _ Hr).
Qed.

(** The result holds no forward slash. *)
Lemma cleanTestName_no_slash (s : string) : occurs "/" (cleanTestName s) = false.
Proof.
  pose proof (cleanTestName_normalizes s) as H.
  induction H as [p r Hr Hne | p r _ IH | p r Hp Hr Hne | p r Hp _ IH | s H1 H2];
    auto.
  rewrite !occurs_app in Hp. cbn [occurs] in Hp.
  now repeat (apply orb_false_elim in Hp as [? Hp]).
Qed.

(** The result is never longer than the input, and shorter as soon as the
    input holds a delimiter. *)
Lemma cleanTestName_length (s : string) :
  (String.length (cleanTestName s) <= String.length s)%nat /\
  (occurs "/" s || occurs "\" s = true ->
   (String.length (cleanTestName s) < String.length s)%nat).
Proof.
  pose proof (cleanTestName_normalizes s) as H.
  induction H as [p r Hr Hne | p r _ IH | p r Hp Hr Hne | p r Hp _ IH | s H1 H2];
    rewrite ?length_app; cbn [String.length append]; try lia.
  rewrite H1, H2. split; [lia | discriminate].
Qed.

End Normalizer.

(** C5. The name normalizer follows the specified algorithm on every input:
    split after the rightmost forward-slash unless it is the final byte, in
    which case strip it and retry; only without a forward-slash apply the
    same rule to the rightmost backslash; with neither delimiter return the
    input.  The code's result is the one and only result of that algorithm,
    and the four sample inputs give ["c"], ["c"], ["b"] and [""]. *)
Theorem cleanTestName_follows_algorithm :
  (forall s r : string, normalizes s r <-> cleanTestName s = r) /\
  cleanTestName "a/b/c" = "c" /\
  cleanTestName "a\b\c" = "c" /\
  cleanTestName "a/b/" = "b" /\
  cleanTestName "" = "".
Proof.
  split; [|repeat split; reflexivity].
  intros s r. split.
  - apply normalizes_cleanTestName.
  - intros <-. apply cleanTestName_normalizes.
Qed.

Lemma cleanTestName_callee_shorter (path p : string) :
  cleanTestName_callee path = Some p ->
  (String.length p < String.length path)%nat /\
  0 <= len path - 1 <= len path /\
  p = slice_to path (len path - 1) /\
  cleanTestName path = cleanTestName p.
Proof.
  unfold cleanTestName_callee. rewrite (cleanTestName_body path).
  intros H.
  assert (Hpos : 0 < len path -> (String.length (slice_to path (len path - 1))
                                  < String.length path)%nat).
  { intros Hl. pose proof (length_slice_to path (len path - 1)) as E.
    unfold len in *. lia. }
  destruct (Z.eqb_spec (LastIndex path "/") (-1)) as [E|E]; cbn [negb] in *.
  - destruct (Z.eqb_spec (LastIndex path "\") (-1)) as [E'|E']; cbn [negb] in *;
      [discriminate|].
    destruct (LastIndex path "\" =? len path - 1); [|discriminate].
    injection H as <-. pose proof (LastIndex_bounds _ _ E').
    repeat split; try lia; apply Hpos; lia.
  - destruct (LastIndex path "/" =? len path - 1); [|discriminate].
    injection H as <-. pose proof (LastIndex_bounds _ _ E).
    repeat split; try lia; apply Hpos; lia.
Qed.

Lemma cleanTestName_run_step (fuel : nat) (path : string) :
  cleanTestName_run (S fuel) path =
  match cleanTestName_callee path with
  | Some p => cleanTestName_run fuel p
  | None => Returned (cleanTestName path)
  end.
Proof.
  destruct (cleanTestName_callee path) as [p|] eqn:Hc.
  - destruct (cleanTestName_callee_shorter _ _ Hc) as (_ & Hb & -> & _).
    revert Hc. unfold cleanTestName_callee. cbn [cleanTestName_run].
    assert (Hchk : slice_to_chk path (len path - 1)
                   = Some (slice_to path (len path - 1))).
    { unfold slice_to_chk.
      destruct (Z.leb_spec 0 (len path - 1)); [|lia].
      destruct (Z.leb_spec (len path - 1) (len path)); [reflexivity | lia]. }
    rewrite Hchk.
    destruct (negb (LastIndex path "/" =? -1)).
    + destruct (LastIndex path "/" =? len path - 1); [reflexivity | discriminate].
    + destruct (negb (LastIndex path "\" =? -1)); [|discriminate].
      destruct (LastIndex path "\" =? len path - 1); [reflexivity | discriminate].
  - revert Hc. unfold cleanTestName_callee. rewrite (cleanTestName_body path).
    cbn [cleanTestName_run].
    assert (Hchk : forall c, LastIndex path c <> -1 ->
              slice_from_chk path (LastIndex path c + 1)
              = Some (slice_from path (LastIndex path c + 1))).
    { intros c Hcne. pose proof (LastIndex_bounds _ _ Hcne). unfold slice_from_chk.
      destruct (Z.leb_spec 0 (LastIndex path c + 1)); [|lia].
      destruct (Z.leb_spec (LastIndex path c + 1) (len path)); [reflexivity | lia]. }
    destruct (Z.eqb_spec (LastIndex path "/") (-1)) as [E|E]; cbn [negb].
    + destruct (Z.eqb_spec (LastIndex path "\") (-1)) as [E'|E']; cbn [negb];
        [reflexivity|].
      destruct (LastIndex path "\" =? len path - 1); [discriminate|].
      now rewrite Hchk.
    + destruct (LastIndex path "/" =? len path - 1); [discriminate|].
      now rewrite Hchk.
Qed.

Lemma cleanTestName_run_enough (fuel : nat) (path : string) :
  (String.length path < fuel)%nat ->
  cleanTestName_run fuel path = Returned (cleanTestName path).
Proof.
  revert path. induction fuel as [|fuel IH]; intros path Hlt; [lia|].
  rewrite cleanTestName_run_step.
  destruct (cleanTestName_callee path) as [p|] eqn:Hc; [|reflexivity].
  destruct (cleanTestName_callee_shorter _ _ Hc) as (Hp & _ & _ & ->).
  apply IH. lia.
Qed.

(** C9. The name normalizer is total: run with fuel above the length of
    the input, the bounds-checked interpreter of the source returns the
    result, neither running out of fuel nor panicking on a slice; every
    recursive call is on a strictly shorter string; an input on which no
    recursive call is made returns at once, and the empty string is such an
    input, returning the empty string. *)
Theorem cleanTestName_total (path : string) :
  (forall fuel : nat, (String.length path < fuel)%nat ->
     cleanTestName_run fuel path = Returned (cleanTestName path)) /\
  (forall p : string, cleanTestName_callee path = Some p ->
     (String.length p < String.length path)%nat /\
     cleanTestName path = cleanTestName p) /\
  (cleanTestName_callee path = None ->
     cleanTestName_run 1 path = Returned (cleanTestName path)) /\
  cleanTestName_callee "" = None /\
  cleanTestName_run 1 "" = Returned "".
Proof.
  split; [intros fuel; apply cleanTestName_run_enough|].
  split; [intros p Hp; now destruct (cleanTestName_callee_shorter _ _ Hp) as (? & _ & _ & ?)|].
  split; [|split; reflexivity].
  intros Hc. now rewrite cleanTestName_run_step, Hc.
Qed.

Lemma cleanTestName_total_witness :
  cleanTestName_run 6 "a/b//" = Returned "b" /\
  (String.length "a/b/" < String.length "a/b//")%nat /\
  cleanTestName "a/b//" = cleanTestName "a/b/".
Proof.
  destruct (cleanTestName_total "a/b//") as (Hrun & Hcall & _).
  split; [apply (Hrun 6%nat); cbn; lia|].
  apply (Hcall "a/b/"). reflexivity.
Defined.

Lemma cleanTestName_no_slash_no_backslash (s : string) :
  occurs "/" s = false -> occurs "\" (cleanTestName s) = false.
Proof.
  pose proof (cleanTestName_normalizes s) as H.
  induction H as [p r Hr Hne | p r _ IH | p r Hp Hr Hne | p r Hp _ IH | s H1 H2];
    auto.
  - rewrite occurs_app. cbn [append occurs Ascii.eqb Bool.eqb orb].
    rewrite orb_true_r. discriminate.
  - rewrite occurs_app. cbn [append occurs Ascii.eqb Bool.eqb orb].
    rewrite orb_true_r. discriminate.
Qed.

(** C2, as the code has it.  Normalizing twice gives the same name as
    normalizing once exactly when the normalized name holds no backslash;
    this is the case for every input without a forward slash. *)
Theorem cleanTestName_idempotent_iff (s : string) :
  (cleanTestName (cleanTestName s) = cleanTestName s
   <-> occurs "\" (cleanTestName s) = false) /\
  (occurs "/" s = false ->
   cleanTestName (cleanTestName s) = cleanTestName s).
Proof.
  assert (Hid : occurs "\" (cleanTestName s) = false ->
                cleanTestName (cleanTestName s) = cleanTestName s).
  { intros Hb. apply cleanTestName_plain; [apply cleanTestName_no_slash | exact Hb]. }
  split; [split; [|exact Hid] | intros Hs; now apply Hid, cleanTestName_no_slash_no_backslash].
  intros E. destruct (occurs "\" (cleanTestName s)) eqn:Hb; [|reflexivity].
  destruct (cleanTestName_length (cleanTestName s)) as [_ Hlt].
  rewrite Hb, orb_true_r, E in Hlt. specialize (Hlt eq_refl). lia.
Qed.

Lemma cleanTestName_idempotent_iff_witness :
  cleanTestName (cleanTestName "a\b\c") = cleanTestName "a\b\c".
Proof.
  apply (cleanTestName_idempotent_iff "a\b\c"). reflexivity.
Defined.

(** C2 as stated fails: the forward slash is resolved first, and the
    segment after it may still hold a backslash. *)
Lemma cleanTestName_not_idempotent :
  cleanTestName "a/b\c" = "b\c" /\
  cleanTestName (cleanTestName "a/b\c") = "c" /\
  cleanTestName (cleanTestName "a/b\c") <> cleanTestName "a/b\c".
Proof. repeat split; try reflexivity. vm_compute. discriminate. Qed.

(** ** History link and summary *)

(** C1, as the code has it.  The history URL is [UIRoot], then
    ["/task_history/"], the task's project, ["/"], the task's display name,
    ["#"], the test name and ["=fail"]: the test name appears once, after
    the ["#"]. *)
Theorem historyURL_shape (t : model.Task) (testName : string) :
  historyURL t testName =
  UIRoot +:+ "/task_history/" +:+ model.Project t +:+ "/" +:+ model.DisplayName t
  +:+ "#" +:+ testName +:+ "=fail".
Proof. unfold historyURL. cbn [Sprintf Ascii.eqb Bool.eqb andb]. reflexivity. Qed.

(** C1 as stated fails: the path of the URL ends with the task's display
    name and does not repeat the test name before the ["#"]. *)
Lemma historyURL_no_test_segment :
  historyURL (model.mkTask "123" "T" "V" "P" []) "foo.js"
  = "https://evergreen.mongodb.com/task_history/P/T#foo.js=fail" /\
  historyURL (model.mkTask "123" "T" "V" "P" []) "foo.js"
  <> UIRoot +:+ "/task_history/" +:+ "P" +:+ "/" +:+ "T" +:+ "/" +:+ "foo.js"
     +:+ "#" +:+ "foo.js" +:+ "=fail".
Proof. split; [reflexivity | vm_compute; discriminate]. Qed.

Lemma names_loop (tests : list jiraTestFailure) (acc : list string) :
  fold_left (fun names t => names ++ [Name t]) tests acc = acc ++ map Name tests.
Proof.
  revert acc. induction tests as [|f tests IH]; intros acc; cbn [fold_left map].
  - now rewrite app_nil_r.
  - rewrite IH, <- List.app_assoc. reflexivity.
Qed.

Lemma getSummary_names (taskName : string) (tests : list jiraTestFailure) :
  (1 <= List.length tests <= 4)%nat ->
  getSummary taskName tests = Join (map Name tests) ", ".
Proof.
  intros H. unfold getSummary, lenS.
  destruct (Z.eqb_spec (Z.of_nat (List.length tests)) 0); [lia|].
  destruct (Z.gtb_spec (Z.of_nat (List.length tests)) 4); [lia|].
  now rewrite names_loop.
Qed.

(** C4. The summary of no failure is the task name followed by
    [" failure"]; of more than four failures, the task name followed by
    [" failures"]; of one to four failures, their names joined by [", "]
    in the order supplied, whatever the task name. *)
Theorem getSummary_policy (taskName : string) (tests : list jiraTestFailure) :
  (tests = [] -> getSummary taskName tests = taskName +:+ " failure") /\
  ((4 < List.length tests)%nat ->
   getSummary taskName tests = taskName +:+ " failures") /\
  ((1 <= List.length tests <= 4)%nat ->
   getSummary taskName tests = Join (map Name tests) ", " /\
   forall other : string, getSummary other tests = getSummary taskName tests) /\
  (forall a b c d : string, Join [a] ", " = a /\
     Join [a; b] ", " = a +:+ ", " +:+ b /\
     Join [a; b; c] ", " = a +:+ ", " +:+ b +:+ ", " +:+ c /\
     Join [a; b; c; d] ", " = a +:+ ", " +:+ b +:+ ", " +:+ c +:+ ", " +:+ d).
Proof.
  repeat split; try reflexivity.
  - intros ->. reflexivity.
  - intros H. unfold getSummary, lenS.
    destruct (Z.eqb_spec (Z.of_nat (List.length tests)) 0); [lia|].
    destruct (Z.gtb_spec (Z.of_nat (List.length tests)) 4); [reflexivity | lia].
  - now apply getSummary_names.
  - intros other. now rewrite !getSummary_names.
Qed.

Lemma getSummary_policy_witness :
  getSummary "T" [] = "T failure" /\
  getSummary "T" (repeat (mkJiraTestFailure "x" "u" "h") 5) = "T failures" /\
  getSummary "T" [mkJiraTestFailure "x" "u1" "h1"; mkJiraTestFailure "y" "u2" "h2"]
  = "x, y".
Proof.
  split; [|split].
  - destruct (getSummary_policy "T" []) as (H0 & _). now apply H0.
  - destruct (getSummary_policy "T" (repeat (mkJiraTestFailure "x" "u" "h") 5))
      as (_ & Hmany & _).
    apply Hmany. cbn. lia.
  - destruct (getSummary_policy "T"
                [mkJiraTestFailure "x" "u1" "h1"; mkJiraTestFailure "y" "u2" "h2"])
      as (_ & _ & Hfew & _).
    apply Hfew. cbn. lia.
Defined.

(** ** Cross-referencing the selection with the task's results *)

Section Selection.

Lemma testIdSet_loop (ids : list string) (m : gmap string bool) (k : string) :
  fold_left (fun testIds testId => <[testId := true]> testIds) ids m !! k
  = if decide (k ∈ ids) then Some true else m !! k.
Proof.
  revert m. induction ids as [|id ids IH]; intros m; cbn [fold_left].
  - rewrite decide_False; [reflexivity | apply not_elem_of_nil].
  - rewrite IH. destruct (decide (k ∈ ids)) as [Hin|Hnin].
    + rewrite decide_True; [reflexivity | now apply elem_of_cons; right].
    + destruct (decide (id = k)) as [->|Hne].
      * rewrite lookup_insert_eq, decide_True; [reflexivity | apply list_elem_of_here].
      * rewrite lookup_insert_ne by assumption.
        rewrite decide_False; [reflexivity|].
        intros [?|?]%elem_of_cons; congruence.
Qed.

(** Reading the membership map answers whether the identifier was
    selected. *)
Lemma testIdSet_lookup (ids : list string) (k : string) :
  default false (testIdSet ids !! k) = bool_decide (k ∈ ids).
Proof.
  unfold testIdSet. rewrite testIdSet_loop, lookup_empty.
  destruct (decide (k ∈ ids)) as [H|H].
  - now rewrite bool_decide_eq_true_2.
  - now rewrite bool_decide_eq_false_2.
Qed.

Lemma failedTests_loop (t : model.Task) (testIds : gmap string bool)
    (results : list model.TestResult) (acc : list jiraTestFailure) :
  fold_left
    (fun tests test =>
       if default false (testIds !! model.TestFile test) then
         tests ++ [ {| Name := cleanTestName (model.TestFile test);
                       URL := model.URL test;
                       HistoryURL := historyURL t (cleanTestName (model.TestFile test)) |} ]
       else tests)
    results acc
  = acc ++ map (failureDetail t)
             (List.filter (fun test => default false (testIds !! model.TestFile test))
                results).
Proof.
  revert acc. induction results as [|r results IH]; intros acc;
    cbn [fold_left List.filter map].
  - now rewrite app_nil_r.
  - rewrite IH. destruct (default false (testIds !! model.TestFile r)).
    + cbn [map]. now rewrite <- List.app_assoc.
    + reflexivity.
Qed.

Lemma failedTests_filter (t : model.Task) (ids : list string) :
  failedTests t (testIdSet ids)
  = map (failureDetail t)
      (List.filter (fun test => bool_decide (model.TestFile test ∈ ids))
         (model.TestResults t)).
Proof.
  unfold failedTests. rewrite failedTests_loop. cbn [app]. f_equal.
  apply List.filter_ext. intros r. apply testIdSet_lookup.
Qed.

(** Two selections with the same members build the same membership map. *)
Lemma testIdSet_members (ids1 ids2 : list string) :
  (forall id : string, id ∈ ids1 <-> id ∈ ids2) ->
  testIdSet ids1 = testIdSet ids2.
Proof.
  intros H. apply map_eq. intros k. unfold testIdSet.
  rewrite !testIdSet_loop.
  destruct (decide (k ∈ ids1)) as [H1|H1], (decide (k ∈ ids2)) as [H2|H2];
    try reflexivity; exfalso; apply H in H1 || apply H in H2; contradiction.
Qed.

End Selection.

(** C3. The failure details are the task's test results, walked in their
    stored order, restricted to the entries whose raw identifier is one of
    the selected identifiers, each mapped to its detail record.  The order
    of the selection plays no part, and a selected identifier that names no
    result of the task changes nothing. *)
Theorem failedTests_selected (t : model.Task) (ids : list string) :
  failedTests t (testIdSet ids)
  = map (failureDetail t)
      (List.filter (fun test => bool_decide (model.TestFile test ∈ ids))
         (model.TestResults t)) /\
  (forall ids' : list string, Permutation ids ids' ->
     failedTests t (testIdSet ids') = failedTests t (testIdSet ids)) /\
  (forall id : string, id ∉ map model.TestFile (model.TestResults t) ->
     failedTests t (testIdSet (id :: ids)) = failedTests t (testIdSet ids)).
Proof.
  split; [apply failedTests_filter|]. split.
  - intros ids' Hp. f_equal. apply testIdSet_members.
    intros id. now rewrite Hp.
  - intros id Hid. rewrite !failedTests_filter. f_equal.
    apply List.filter_ext_in. intros r Hr.
    apply bool_decide_ext. rewrite elem_of_cons.
    split; [|tauto]. intros [E|?]; [|assumption].
    exfalso. apply Hid. rewrite <- E.
    apply list_elem_of_In, in_map, Hr.
Qed.

Lemma failedTests_selected_witness :
  let t := model.mkTask "123" "T" "V" "P"
             [model.mkTestResult "dir/foo.js" "u1"; model.mkTestResult "bar.js" "u2";
              model.mkTestResult "baz.js" "u3"] in
  failedTests t (testIdSet ["bar.js"; "dir/foo.js"; "foo.js"])
  = failedTests t (testIdSet ["foo.js"; "dir/foo.js"; "bar.js"]) /\
  failedTests t (testIdSet ["missing.js"; "bar.js"])
  = failedTests t (testIdSet ["bar.js"]).
Proof.
  intros t. split.
  - destruct (failedTests_selected t ["foo.js"; "dir/foo.js"; "bar.js"])
      as (_ & Hperm & _).
    apply Hperm.
    apply (Permutation_rev ["foo.js"; "dir/foo.js"; "bar.js"]).
  - destruct (failedTests_selected t ["bar.js"]) as (_ & _ & Hmiss).
    apply Hmiss. cbn. rewrite !elem_of_cons, elem_of_nil.
    intros [H|[H|[H|H]]]; try discriminate H; exact H.
Defined.

(** C10. The selection is a set: two selection lists with the same
    members, whatever their order and multiplicities, give the same
    membership map, hence the same failure details, the same summary and
    description, and the same handler altogether. *)
Theorem selection_is_a_set (bbp : BuildBaronPlugin) (tmpl : Template)
    (taskId userId : string) (t : model.Task) (ids1 ids2 : list string) :
  (forall id : string, id ∈ ids1 <-> id ∈ ids2) ->
  testIdSet ids1 = testIdSet ids2 /\
  failedTests t (testIdSet ids1) = failedTests t (testIdSet ids2) /\
  getSummary (model.DisplayName t) (failedTests t (testIdSet ids1))
  = getSummary (model.DisplayName t) (failedTests t (testIdSet ids2)) /\
  getDescription tmpl t userId (failedTests t (testIdSet ids1))
  = getDescription tmpl t userId (failedTests t (testIdSet ids2)) /\
  fileTicket bbp tmpl (mkInput taskId ids1) = fileTicket bbp tmpl (mkInput taskId ids2).
Proof.
  intros H. apply testIdSet_members in H.
  unfold fileTicket. cbn [TaskId TestIds]. rewrite H. repeat split; reflexivity.
Qed.

Lemma selection_is_a_set_witness :
  let t := model.mkTask "123" "T" "V" "P"
             [model.mkTestResult "dir/foo.js" "u1"; model.mkTestResult "bar.js" "u2"] in
  failedTests t (testIdSet ["bar.js"; "dir/foo.js"; "bar.js"; "bar.js"])
  = failedTests t (testIdSet ["dir/foo.js"; "bar.js"]).
Proof.
  intros t.
  apply (selection_is_a_set (mkPlugin (mkOptions "h" "u" "p")) DescriptionTemplate
           "123" "bob" t ["bar.js"; "dir/foo.js"; "bar.js"; "bar.js"]
           ["dir/foo.js"; "bar.js"]).
  intros id. rewrite !elem_of_cons, elem_of_nil. tauto.
Defined.

(** ** The description *)

(** Parsing the template text succeeds, so that [template.Must] does not
    panic, and gives [DescriptionTemplate]. *)
Lemma DescriptionTemplate_parsed :
  Parse DescriptionTemplateString = Ok DescriptionTemplate.
Proof. vm_compute. reflexivity. Qed.

(** The body of the [range] action renders one test line, followed by a
    blank line, per failure. *)
Lemma range_body_renders (body : list Node) (tests : list jiraTestFailure) :
  body = [TextNode "*"; ActionNode ["Name"]; TextNode "* - [Logs|";
          ActionNode ["URL"]; TextNode "] | [History|";
          ActionNode ["HistoryURL"]; TextNode ("]" +:+ nl +:+ nl)] ->
  walkAll (fun elem => walkAll (fun n' => execNode n' elem) body)
    (map failureValue tests)
  = Ok (paragraphs (map testLine tests)).
Proof.
  intros ->. induction tests as [|f tests IH]; [reflexivity|].
  cbn [map walkAll paragraphs]. cbn [map walkAll] in IH. rewrite IH.
  cbn. unfold testLine. f_equal.
  repeat (rewrite ?app_assoc_string; cbn [append]). reflexivity.
Qed.

(** C6. For every task, user and list of failure details the renderer
    succeeds, and its output is the heading (display name and build variant
    linked to [<UIRoot>/task/<TaskId>]), then one line per failure (bolded
    name, Logs link to its URL, History link to its history URL) in the
    order of the input, then the attribution line naming the user; with no
    failure the heading and the attribution remain and there is no test
    line. *)
Theorem getDescription_renders (t : model.Task) (userId : string)
    (tests : list jiraTestFailure) :
  getDescription DescriptionTemplate t userId tests
  = Ok (nl +:+ headingLine t +:+ nl +:+ nl
        +:+ paragraphs (map testLine tests)
        +:+ nl +:+ nl +:+ nl +:+ nl +:+ attributionLine userId +:+ nl) /\
  List.length (map testLine tests) = List.length tests /\
  (forall (i : nat) (f : jiraTestFailure),
     nth_error tests i = Some f ->
     nth_error (map testLine tests) i = Some (testLine f)) /\
  getDescription DescriptionTemplate t userId []
  = Ok (nl +:+ headingLine t +:+ nl +:+ nl
        +:+ nl +:+ nl +:+ nl +:+ nl +:+ attributionLine userId +:+ nl).
Proof.
  assert (Hgen : forall fs : list jiraTestFailure,
    getDescription DescriptionTemplate t userId fs
    = Ok (nl +:+ headingLine t +:+ nl +:+ nl
          +:+ paragraphs (map testLine fs)
          +:+ nl +:+ nl +:+ nl +:+ nl +:+ attributionLine userId +:+ nl)).
  { intros fs. unfold getDescription, Execute, DescriptionTemplate.
    cbn [walkAll execNode evalField indirect lookupField String.eqb Ascii.eqb Bool.eqb
         printValue taskValue].
    match goal with
    | |- context [walkAll ?f (map failureValue fs)] =>
        replace (walkAll f (map failureValue fs))
          with (Ok (paragraphs (map testLine fs)))
          by (symmetry; exact (range_body_renders _ fs eq_refl))
    end.
    unfold headingLine, attributionLine, nl, UIRoot.
    f_equal. repeat (rewrite ?app_assoc_string; cbn [append ascii_of_nat ascii_of_pos
      Pos.of_succ_nat Pos.succ]). reflexivity. }
  split; [apply Hgen|]. split; [apply length_map|]. split; [|apply (Hgen [])].
  intros i f Hf. now rewrite nth_error_map, Hf.
Qed.

Lemma getDescription_renders_witness :
  nth_error
    (map testLine [mkJiraTestFailure "foo.js" "u1" "h1"; mkJiraTestFailure "bar.js" "u2" "h2"])
    1
  = Some "*bar.js* - [Logs|u2] | [History|h2]".
Proof.
  destruct (getDescription_renders (model.mkTask "123" "T" "V" "P" []) "bob"
              [mkJiraTestFailure "foo.js" "u1" "h1"; mkJiraTestFailure "bar.js" "u2" "h2"])
    as (_ & _ & Hnth & _).
  apply (Hnth 1%nat (mkJiraTestFailure "bar.js" "u2" "h2")). reflexivity.
Defined.

(** ** The handler *)

Section Handler.

Variable bbp : BuildBaronPlugin.
Variable tmpl : Template.
Variable input : ticketInput.

(** The request map the handler lays out holds the listed fields. *)
Lemma request_fields (t : model.Task) (u : user.DBUser) (summary description : string) :
  <["description" := JString description]>
    (<["reporter" := JMap {["name" := user.Id u]}]>
       (<["assignee" := JMap {["name" := user.Id u]}]>
          (<["issuetype" := JMap {["name" := "Build Failure"]}]>
             (<[FailingTasksField := JStrings [model.DisplayName t]]>
                (<["summary" := JString summary]>
                   (<["project" := JMap {["key" := "BF"]}]> ∅))))))
  = (list_to_map (ticketFields t u summary description) : gmap string JiraValue).
Proof.
  apply map_eq. intros k. unfold ticketFields, FailingTasksField.
  cbn [list_to_map foldr uncurry fst snd].
  rewrite !lookup_insert. repeat case_decide; subst; try reflexivity; try congruence.
Qed.

(** A handler run by fixed collaborators performs one of its traces. *)
Lemma run_runs (w : World) (h : Handler) : runs h (run w h).
Proof.
  induction h as [|k IH|taskId k IH|level format k IH|host un pw request k IH
                  |status body k IH]; cbn [run].
  - constructor.
  - constructor. apply IH.
  - destruct (findTask w taskId) as [t err]. constructor. apply IH.
  - constructor. apply IH.
  - constructor. apply IH.
  - constructor. apply IH.
Qed.

(** Every trace of the handler is one of the six outcomes. *)
Lemma fileTicket_filing (tr : list Event) :
  runs (fileTicket bbp tmpl input) tr -> filing bbp tmpl input tr.
Proof.
  unfold fileTicket. intros H.
  inversion H as [|k u tr1 H1| | | |]; subst; clear H.
  destruct u as [u|].
  2:{ inversion H1 as [| | | | |st bd k tr2 H2]; subst.
      inversion H2; subst. constructor. }
  inversion H1 as [| |id k t err tr2 H2| | |]; subst; clear H1.
  destruct err as [err|].
  { inversion H2 as [| | | | |st bd k tr3 H3]; subst.
    inversion H3; subst. constructor. }
  destruct t as [t|].
  2:{ inversion H2 as [| | | | |st bd k tr3 H3]; subst.
      inversion H3; subst. constructor. }
  cbv zeta in H2.
  destruct (getDescription tmpl t (user.Id u)
              (failedTests t (testIdSet (TestIds input)))) as [description|err] eqn:Hd.
  2:{ inversion H2 as [| | | | |st bd k tr3 H3]; subst.
      inversion H3; subst. now constructor. }
  inversion H2 as [| | |lv fm k tr3 H3| |]; subst; clear H2.
  inversion H3 as [| | | |h un pw rq k res tr4 H4|]; subst; clear H3.
  rewrite request_fields.
  destruct res as [result|err].
  - inversion H4 as [| | |lv fm k tr5 H5| |]; subst; clear H4.
    inversion H5 as [| | | | |st bd k tr6 H6]; subst; clear H5.
    inversion H6; subst. now constructor.
  - cbv zeta in H4.
    inversion H4 as [| | |lv fm k tr5 H5| |]; subst; clear H4.
    inversion H5 as [| | | | |st bd k tr6 H6]; subst; clear H5.
    inversion H6; subst. now constructor.
Qed.

End Handler.

(** Decompose membership in an explicit trace and compare the events. *)
Ltac trace_mem :=
  repeat match goal with
    | H : _ ∈ [] |- _ => apply elem_of_nil in H; contradiction
    | H : _ ∈ _ :: _ |- _ => apply elem_of_cons in H as [H|H]
    end;
  repeat match goal with
    | H : @eq Event _ _ |- _ => first [discriminate H | injection H; clear H; intros]
    end;
  subst.

(** C7. In every invocation each collaborator is called at most once and
    one response is written, as the last call.  Each error ends the
    invocation with its response: no user (401), a lookup error (500), no
    task (404), a rendering error (400) and a submission error (400).  A
    rendering error is answered before any submission, and a submission is
    attempted only when the description was rendered. *)
Theorem fileTicket_errors_terminal (bbp : BuildBaronPlugin) (tmpl : Template)
    (input : ticketInput) (tr : list Event) :
  runs (fileTicket bbp tmpl input) tr ->
  ((calls isGetUser tr <= 1)%nat /\ (calls isFindTask tr <= 1)%nat /\
   (calls isCreateTicket tr <= 1)%nat) /\
  (exists (pre : list Event) (status : Z) (body : Body),
     tr = pre ++ [EvWriteJSON status body] /\ calls isWriteJSON pre = 0%nat) /\
  (EvGetUser None ∈ tr ->
   tr = [EvGetUser None;
         EvWriteJSON http.StatusUnauthorized
           (BodyString "must be logged in to file a ticket")]) /\
  (forall (t : option model.Task) (err : string),
     EvFindTask (TaskId input) t (Some err) ∈ tr ->
     exists u : user.DBUser,
       tr = [EvGetUser (Some u); EvFindTask (TaskId input) t (Some err);
             EvWriteJSON http.StatusInternalServerError (BodyString err)]) /\
  (EvFindTask (TaskId input) None None ∈ tr ->
   exists u : user.DBUser,
     tr = [EvGetUser (Some u); EvFindTask (TaskId input) None None;
           EvWriteJSON http.StatusNotFound
             (BodyString (Sprintf "task not found for id %v" [TaskId input]))]) /\
  (forall (u : user.DBUser) (t : model.Task) (err : string),
     EvGetUser (Some u) ∈ tr ->
     EvFindTask (TaskId input) (Some t) None ∈ tr ->
     getDescription tmpl t (user.Id u) (failedTests t (testIdSet (TestIds input)))
     = Err err ->
     tr = [EvGetUser (Some u); EvFindTask (TaskId input) (Some t) None;
           EvWriteJSON http.StatusBadRequest
             (BodyString (Sprintf "error creating description: %v" [err]))] /\
     calls isCreateTicket tr = 0%nat) /\
  (forall (host username password : string) (request : gmap string JiraValue)
          (err : string),
     EvCreateTicket host username password request (Err err) ∈ tr ->
     exists pre : list Event,
       tr = pre ++ [EvCreateTicket host username password request (Err err);
                    EvLogf slogger.ERROR (Sprintf "error creating JIRA ticket: %v" [err]);
                    EvWriteJSON http.StatusBadRequest
                      (BodyString (Sprintf "error creating JIRA ticket: %v" [err]))] /\
       calls isCreateTicket pre = 0%nat) /\
  (forall (host username password : string) (request : gmap string JiraValue)
          (res : result thirdparty.JiraCreateTicketResponse),
     EvCreateTicket host username password request res ∈ tr ->
     exists (u : user.DBUser) (t : model.Task) (description : string),
       EvGetUser (Some u) ∈ tr /\
       EvFindTask (TaskId input) (Some t) None ∈ tr /\
       getDescription tmpl t (user.Id u) (failedTests t (testIdSet (TestIds input)))
       = Ok description /\
       request !! "description" = Some (JString description)).
Proof.
  intros H. apply fileTicket_filing in H.
  split; [destruct H; cbn; lia|].
  split.
  { destruct H;
      match goal with
      | |- exists pre status body, ?l = _ /\ _ =>
          eexists (removelast l), _, _; split; reflexivity
      end. }
  split; [intros Hm; destruct H; trace_mem; reflexivity|].
  split; [intros t0 err0 Hm; destruct H; trace_mem; eexists; reflexivity|].
  split; [intros Hm; destruct H; trace_mem; eexists; reflexivity|].
  split.
  { intros u0 t0 err0 Hu Ht Hd.
    destruct H as [| | |u t err Hr|u t description err Hr|u t description result Hr];
      trace_mem; rewrite Hd in Hr; [|discriminate Hr..].
    injection Hr as <-. split; reflexivity. }
  split.
  { intros h un pw rq err0 Hm. destruct H; trace_mem.
    eexists [_; _; _]. split; reflexivity. }
  intros h un pw rq res Hm.
  destruct H as [| | | |u t description err Hd|u t description result Hd]; trace_mem.
  - exists u, t, description.
    split; [apply list_elem_of_here|].
    split; [apply list_elem_of_further, list_elem_of_here|].
    split; [assumption|].
    unfold ticketFields. cbn [list_to_map foldr uncurry fst snd].
    repeat (rewrite lookup_insert_ne by discriminate). apply lookup_insert_eq.
  - exists u, t, description.
    split; [apply list_elem_of_here|].
    split; [apply list_elem_of_further, list_elem_of_here|].
    split; [assumption|].
    unfold ticketFields. cbn [list_to_map foldr uncurry fst snd].
    repeat (rewrite lookup_insert_ne by discriminate). apply lookup_insert_eq.
Qed.

Lemma fileTicket_errors_terminal_witness :
  let bbp := mkPlugin (mkOptions "jira" "bot" "secret") in
  let tmpl := [ActionNode ["Missing"]] in
  let input := mkInput "123" ["bar.js"] in
  let t := model.mkTask "123" "T" "V" "P" [model.mkTestResult "bar.js" "u2"] in
  let u := user.mkDBUser "bob" in
  let w := mkWorld (Some u) (fun _ => (Some t, None))
             (fun _ _ _ _ => Ok (thirdparty.mkResponse "BF-1")) in
  run w (fileTicket bbp tmpl input)
  = [EvGetUser (Some u); EvFindTask "123" (Some t) None;
     EvWriteJSON 400
       (BodyString "error creating description: can't evaluate field Missing")] /\
  calls isCreateTicket (run w (fileTicket bbp tmpl input)) = 0%nat.
Proof.
  intros bbp tmpl input t u w.
  destruct (fileTicket_errors_terminal bbp tmpl input _ (run_runs w _))
    as (_ & _ & _ & _ & _ & Hrender & _).
  apply (Hrender u t "can't evaluate field Missing").
  - vm_compute. apply list_elem_of_here.
  - vm_compute. apply list_elem_of_further, list_elem_of_here.
  - vm_compute. reflexivity.
Defined.

Lemma ticketFields_NoDup (t : model.Task) (u : user.DBUser)
    (summary description : string) :
  NoDup (ticketFields t u summary description).*1.
Proof.
  unfold ticketFields. cbn [fmap list_fmap fst].
  repeat (apply NoDup_cons; split;
          [rewrite ?elem_of_cons, elem_of_nil;
           intros H; repeat destruct H as [H|H]; discriminate || contradiction|]).
  apply NoDup_nil_2.
Qed.

(** C8. In a successful invocation, one that answers 200, a single
    submission is made, and its field mapping holds exactly seven fields:
    the project key ["BF"], the summary, the failing-tasks field with the
    one-element list of the task's display name, the issue type
    ["Build Failure"], the assignee and the reporter, both the acting user,
    and the rendered description. *)
Theorem ticketRequest_fields (bbp : BuildBaronPlugin) (tmpl : Template)
    (input : ticketInput) (tr : list Event) (body : Body) :
  runs (fileTicket bbp tmpl input) tr ->
  EvWriteJSON http.StatusOK body ∈ tr ->
  exists (u : user.DBUser) (t : model.Task) (description : string)
         (result : thirdparty.JiraCreateTicketResponse)
         (request : gmap string JiraValue),
    EvGetUser (Some u) ∈ tr /\
    EvFindTask (TaskId input) (Some t) None ∈ tr /\
    getDescription tmpl t (user.Id u) (failedTests t (testIdSet (TestIds input)))
    = Ok description /\
    body = BodyTicket result /\
    List.filter isCreateTicket tr
    = [EvCreateTicket (Host (opts bbp)) (Username (opts bbp)) (Password (opts bbp))
         request (Ok result)] /\
    size request = 7%nat /\
    request !! "project" = Some (JMap {["key" := "BF"]}) /\
    request !! "summary"
    = Some (JString (getSummary (model.DisplayName t)
                       (failedTests t (testIdSet (TestIds input))))) /\
    request !! FailingTasksField = Some (JStrings [model.DisplayName t]) /\
    request !! "issuetype" = Some (JMap {["name" := "Build Failure"]}) /\
    request !! "assignee" = Some (JMap {["name" := user.Id u]}) /\
    request !! "reporter" = Some (JMap {["name" := user.Id u]}) /\
    request !! "description" = Some (JString description) /\
    map_to_list request
    ≡ₚ ticketFields t u
         (getSummary (model.DisplayName t) (failedTests t (testIdSet (TestIds input))))
         description.
Proof.
  intros H Hm. apply fileTicket_filing in H.
  destruct H as [| | | | |u t description result Hd]; trace_mem;
    try match goal with H : @eq Z _ _ |- _ => discriminate H end.
  exists u, t, description, result.
  eexists. split; [apply list_elem_of_here|].
  split; [apply list_elem_of_further, list_elem_of_here|].
  split; [assumption|]. split; [reflexivity|]. split; [reflexivity|].
  pose proof (ticketFields_NoDup t u
    (getSummary (model.DisplayName t) (failedTests t (testIdSet (TestIds input))))
    description) as Hnd.
  split; [now rewrite map_size_list_to_map|].
  repeat (split; [apply elem_of_list_to_map; [exact Hnd|];
                  unfold ticketFields, FailingTasksField;
                  rewrite !elem_of_cons; tauto|]).
  now apply map_to_list_to_map.
Qed.

Lemma ticketRequest_fields_witness :
  let bbp := mkPlugin (mkOptions "jira" "bot" "secret") in
  let input := mkInput "123" ["dir/foo.js"; "bar.js"] in
  let t := model.mkTask "123" "T" "V" "P"
             [model.mkTestResult "dir/foo.js" "u1"; model.mkTestResult "bar.js" "u2"] in
  let resp := thirdparty.mkResponse "BF-1" in
  let w := mkWorld (Some (user.mkDBUser "bob")) (fun _ => (Some t, None))
             (fun _ _ _ _ => Ok resp) in
  exists request : gmap string JiraValue,
    List.filter isCreateTicket (run w (fileTicket bbp DescriptionTemplate input))
    = [EvCreateTicket "jira" "bot" "secret" request (Ok resp)] /\
    size request = 7%nat /\
    request !! "project" = Some (JMap {["key" := "BF"]}).
Proof.
  intros bbp input t resp w.
  destruct (ticketRequest_fields bbp DescriptionTemplate input _ (BodyTicket resp)
              (run_runs w _))
    as (u' & t' & d' & r' & rq & _ & _ & _ & Hbody & Hcalls & Hsize & Hproject & _).
  - vm_compute. do 5 apply list_elem_of_further. apply list_elem_of_here.
  - injection Hbody as <-. exists rq. split; [exact Hcalls|]. split; assumption.
Defined.

(** * Further properties of the code *)

(** ** The name normalizer *)

(** X1. The normalized name is never longer than the input, and it is the
    input itself exactly when the input holds neither delimiter; with a
    delimiter in the input it is strictly shorter. *)
Theorem cleanTestName_fixed_point (s : string) :
  (String.length (cleanTestName s) <= String.length s)%nat /\
  (cleanTestName s = s <-> occurs "/" s = false /\ occurs "\" s = false) /\
  (occurs "/" s = true \/ occurs "\" s = true ->
   (String.length (cleanTestName s) < String.length s)%nat).
Proof.
  destruct (cleanTestName_length s) as [Hle Hlt].
  split; [exact Hle|]. split.
  - split.
    + intros E. rewrite E in Hlt.
      destruct (occurs "/" s), (occurs "\" s); cbn [orb] in Hlt;
        try (specialize (Hlt eq_refl); lia). split; reflexivity.
    + intros [H1 H2]. now apply cleanTestName_plain.
  - intros [H|H]; apply Hlt; rewrite H; [reflexivity | apply orb_true_r].
Qed.

Lemma cleanTestName_fixed_point_witness :
  (String.length (cleanTestName "src\dir\t.js") < String.length "src\dir\t.js")%nat.
Proof.
  destruct (cleanTestName_fixed_point "src\dir\t.js") as (_ & _ & Hlt).
  apply Hlt. right. reflexivity.
Defined.

(** X2. The normalized name never holds a forward slash, and for an input
    without forward slash it holds no backslash either. *)
Theorem cleanTestName_result_delimiters (s : string) :
  occurs "/" (cleanTestName s) = false /\
  (occurs "/" s = false -> occurs "\" (cleanTestName s) = false).
Proof.
  split; [apply cleanTestName_no_slash | apply cleanTestName_no_slash_no_backslash].
Qed.

Lemma cleanTestName_result_delimiters_witness :
  occurs "\" (cleanTestName "src\dir\t.js\") = false.
Proof.
  apply (cleanTestName_result_delimiters "src\dir\t.js\"). reflexivity.
Defined.

(** X3. Normalizing twice reaches a fixed point: a third application
    changes nothing. *)
Theorem cleanTestName_twice_fixed (s : string) :
  cleanTestName (cleanTestName (cleanTestName s)) = cleanTestName (cleanTestName s).
Proof.
  apply cleanTestName_plain.
  - apply cleanTestName_no_slash.
  - apply cleanTestName_no_slash_no_backslash, cleanTestName_no_slash.
Qed.

Lemma allChars_app (f : ascii -> bool) (p q : string) :
  allChars f (p +:+ q) = allChars f p && allChars f q.
Proof.
  induction p as [|c p IH]; cbn [append allChars]; [reflexivity|].
  now rewrite IH, andb_assoc.
Qed.

Lemma append_empty_r (p : string) : p +:+ "" = p.
Proof. induction p as [|c p IH]; cbn [append]; [reflexivity | now rewrite IH]. Qed.

Lemma normalizes_segment (s r : string) :
  normalizes s r ->
  exists p q : string,
    s = p +:+ r +:+ q /\ allChars isDelimiter q = true /\
    (p = "" \/ exists (p' : string) (c : ascii),
                 p = p' +:+ String c "" /\ isDelimiter c = true).
Proof.
  induction 1 as [p r Hr Hne | p r _ IH | p r Hp Hr Hne | p r Hp _ IH | s H1 H2].
  - exists (p +:+ "/"), "". split; [|split; [reflexivity|]].
    + now rewrite append_empty_r, app_assoc_string.
    + right. exists p, "/"%char. split; reflexivity.
  - destruct IH as (p0 & q0 & -> & Hq & Hp0).
    exists p0, (q0 +:+ "/"). split; [|split; [|exact Hp0]].
    + now rewrite !app_assoc_string.
    + rewrite allChars_app, Hq. reflexivity.
  - exists (p +:+ "\"), "". split; [|split; [reflexivity|]].
    + now rewrite append_empty_r, app_assoc_string.
    + right. exists p, "\"%char. split; reflexivity.
  - destruct IH as (p0 & q0 & -> & Hq & Hp0).
    exists p0, (q0 +:+ "\"). split; [|split; [|exact Hp0]].
    + now rewrite !app_assoc_string.
    + rewrite allChars_app, Hq. reflexivity.
  - exists "", "". split; [|split; [reflexivity | now left]].
    cbn [append]. now rewrite append_empty_r.
Qed.

(** X4. The normalized name is a contiguous piece of the input: what
    follows it in the input are delimiters only, and what precedes it is
    empty or ends with a delimiter. *)
Theorem cleanTestName_segment (s : string) :
  exists p q : string,
    s = p +:+ cleanTestName s +:+ q /\
    allChars isDelimiter q = true /\
    (p = "" \/ exists (p' : string) (c : ascii),
                 p = p' +:+ String c "" /\ isDelimiter c = true).
Proof. apply normalizes_segment, cleanTestName_normalizes. Qed.

Lemma repeatByte_snoc (c : ascii) (n : nat) :
  repeatByte c (S n) = repeatByte c n +:+ String c "".
Proof.
  induction n as [|n IH]; [reflexivity|].
  cbn [repeatByte append] in *. f_equal. exact IH.
Qed.

Lemma occurs_repeatByte (c d : ascii) (n : nat) :
  Ascii.eqb d c = false -> occurs c (repeatByte d n) = false.
Proof.
  intros H. induction n as [|n IH]; cbn [repeatByte occurs]; [reflexivity|].
  now rewrite H, IH.
Qed.

Lemma occurs_repeatByte_same (c : ascii) (n : nat) :
  occurs c (repeatByte c (S n)) = true.
Proof. cbn [repeatByte occurs]. now rewrite Ascii.eqb_refl. Qed.

(** X5. Trailing forward slashes never change the normalized name, and
    trailing backslashes do not change it when the input holds no forward
    slash. *)
Theorem cleanTestName_trailing (s : string) (n : nat) :
  cleanTestName (s +:+ repeatByte "/" n) = cleanTestName s /\
  (occurs "/" s = false ->
   cleanTestName (s +:+ repeatByte "\" n) = cleanTestName s).
Proof.
  split.
  - induction n as [|n IH]; [now rewrite append_empty_r|].
    rewrite repeatByte_snoc, <- app_assoc_string, cleanTestName_final; auto.
  - intros Hs. induction n as [|n IH]; [now rewrite append_empty_r|].
    rewrite repeatByte_snoc, <- app_assoc_string, cleanTestName_final; [exact IH|].
    right. split; [reflexivity|].
    rewrite occurs_app, Hs. now apply occurs_repeatByte.
Qed.

Lemma cleanTestName_trailing_witness :
  cleanTestName ("src\t.js" +:+ repeatByte "\" 3) = cleanTestName "src\t.js".
Proof.
  apply (cleanTestName_trailing "src\t.js" 3). reflexivity.
Defined.

Lemma normalizes_empty_inv (s r : string) :
  normalizes s r -> r = "" ->
  exists a b : nat, s = repeatByte "\" a +:+ repeatByte "/" b.
Proof.
  induction 1 as [p r Hr Hne | p r _ IH | p r Hp Hr Hne | p r Hp _ IH | s H1 H2];
    intros E.
  - contradiction.
  - destruct (IH E) as (a & b & ->). exists a, (S b).
    now rewrite repeatByte_snoc, app_assoc_string.
  - contradiction.
  - destruct (IH E) as (a & b & ->). destruct b as [|b].
    + exists (S a), 0%nat. rewrite repeatByte_snoc.
      cbn [repeatByte]. now rewrite !append_empty_r.
    + rewrite occurs_app, occurs_repeatByte_same, orb_true_r in Hp. discriminate.
  - subst s. exists 0%nat, 0%nat. reflexivity.
Qed.

(** X6. The normalized name is empty exactly when the input is a run of
    backslashes followed by a run of forward slashes (both possibly
    empty). *)
Theorem cleanTestName_empty_iff (s : string) :
  cleanTestName s = "" <->
  exists a b : nat, s = repeatByte "\" a +:+ repeatByte "/" b.
Proof.
  split.
  - intros E. apply (normalizes_empty_inv s (cleanTestName s));
      [apply cleanTestName_normalizes | exact E].
  - intros (a & b & ->).
    destruct (cleanTestName_trailing (repeatByte "\" a) b) as [-> _].
    destruct (cleanTestName_trailing "" a) as [_ Hb].
    cbn [append] in Hb. now rewrite Hb.
Qed.

(** ** History link and summary *)

Lemma append_inv_head (p a b : string) : p +:+ a = p +:+ b -> a = b.
Proof.
  induction p as [|c p IH]; cbn [append]; [tauto|].
  intros H. injection H as H. now apply IH.
Qed.

Lemma append_inv_tail (a b q : string) : a +:+ q = b +:+ q -> a = b.
Proof.
  revert b. induction a as [|c a IH]; intros [|d b] H; cbn [append] in H.
  - reflexivity.
  - exfalso. apply (f_equal String.length) in H.
    cbn [String.length] in H. rewrite length_app in H. lia.
  - exfalso. apply (f_equal String.length) in H.
    cbn [String.length] in H. rewrite length_app in H. lia.
  - injection H as -> H. f_equal. now apply IH.
Qed.

(** X7. For tasks of the same project and display name, the history URL
    determines the test name: two test names with the same history URL are
    equal. *)
Theorem historyURL_injective (t t' : model.Task) (n n' : string) :
  model.Project t = model.Project t' ->
  model.DisplayName t = model.DisplayName t' ->
  historyURL t n = historyURL t' n' -> n = n'.
Proof.
  intros Hp Hd. unfold historyURL. cbn [Sprintf Ascii.eqb Bool.eqb andb].
  rewrite Hp, Hd. intros H.
  apply append_inv_head in H. injection H as H.
  repeat (injection H as H).
  apply append_inv_head in H. injection H as H.
  apply append_inv_head in H. injection H as H.
  apply (append_inv_tail n n' "=fail"). exact H.
Qed.

Lemma historyURL_injective_witness :
  cleanTestName "dir/foo.js" = "foo.js".
Proof.
  apply (historyURL_injective (model.mkTask "1" "T" "V" "P" [])
           (model.mkTask "2" "T" "W" "P" []) (cleanTestName "dir/foo.js") "foo.js");
    reflexivity.
Defined.

Lemma append_eq_empty (a b : string) : a +:+ b = "" -> a = "" /\ b = "".
Proof. destruct a; cbn [append]; [tauto | discriminate]. Qed.

(** X8. The summary is the empty string exactly when there is a single
    failure and its name is empty. *)
Theorem getSummary_empty_iff (taskName : string) (tests : list jiraTestFailure) :
  getSummary taskName tests = "" <->
  exists f : jiraTestFailure, tests = [f] /\ Name f = "".
Proof.
  split.
  - intros E. destruct tests as [|f tests].
    + cbn in E. apply append_eq_empty in E as [_ E]. discriminate E.
    + destruct (Nat.le_gt_cases (List.length (f :: tests)) 4) as [Hle|Hgt].
      * rewrite getSummary_names in E by (cbn [List.length] in *; lia).
        destruct tests as [|g tests]; [exists f; split; [reflexivity | exact E]|].
        cbn [map Join] in E.
        apply append_eq_empty in E as [_ E]. discriminate E.
      * unfold getSummary, lenS in E.
        destruct (Z.eqb_spec (Z.of_nat (List.length (f :: tests))) 0);
          [cbn [List.length] in *; lia|].
        destruct (Z.gtb_spec (Z.of_nat (List.length (f :: tests))) 4); [|lia].
        cbn in E. apply append_eq_empty in E as [_ E]. discriminate E.
  - intros (f & -> & Hf). rewrite getSummary_names by (cbn; lia).
    exact Hf.
Qed.

(** ** Cross-referencing the selection with the task's results *)

(** X9. The membership map holds exactly the selected identifiers, each
    with the value [true]: a selected identifier reads [true], any other key
    is missing, and duplicates in the selection are stored once. *)
Theorem testIdSet_lookup_iff (ids : list string) (k : string) :
  (k ∈ ids -> testIdSet ids !! k = Some true) /\
  (k ∉ ids -> testIdSet ids !! k = None) /\
  testIdSet ids !! k <> Some false /\
  (size (testIdSet ids) <= List.length ids)%nat.
Proof.
  assert (Hk : forall k', testIdSet ids !! k'
                          = if decide (k' ∈ ids) then Some true else None).
  { intros k'. unfold testIdSet. rewrite testIdSet_loop, lookup_empty. reflexivity. }
  split; [intros H; rewrite Hk; now rewrite decide_True|].
  split; [intros H; rewrite Hk; now rewrite decide_False|].
  split; [rewrite Hk; destruct (decide (k ∈ ids)); discriminate|].
  unfold testIdSet.
  assert (Hsize : forall (l : list string) (m : gmap string bool),
    (size (fold_left (fun testIds testId => <[testId := true]> testIds) l m)
     <= size m + List.length l)%nat).
  { induction l as [|id l IH]; intros m; cbn [fold_left List.length]; [lia|].
    specialize (IH (<[id := true]> m)).
    destruct (m !! id) as [b|] eqn:Hm.
    - rewrite map_size_insert_Some in IH by eauto. lia.
    - rewrite map_size_insert_None in IH by exact Hm. lia. }
  pose proof (Hsize ids ∅) as H. rewrite map_size_empty in H.
  exact H.
Qed.

Lemma testIdSet_lookup_iff_witness :
  testIdSet ["a.js"; "b.js"; "a.js"] !! "a.js" = Some true /\
  testIdSet ["a.js"; "b.js"; "a.js"] !! "c.js" = None.
Proof.
  split.
  - apply (testIdSet_lookup_iff ["a.js"; "b.js"; "a.js"] "a.js").
    apply list_elem_of_here.
  - apply (testIdSet_lookup_iff ["a.js"; "b.js"; "a.js"] "c.js").
    rewrite !elem_of_cons, elem_of_nil.
    intros [H|[H|[H|H]]]; try discriminate H; exact H.
Defined.

(** X10. Every failure detail the pipeline builds comes from a test result
    of the task whose raw identifier was selected: its URL is the result's
    URL, its name is the normalized identifier and holds no forward slash,
    and its history URL is the one of that name.  Conversely every selected
    result of the task gives a detail, and there are never more details
    than results. *)
Theorem failedTests_provenance (t : model.Task) (ids : list string) :
  (forall f : jiraTestFailure,
     f ∈ failedTests t (testIdSet ids) ->
     exists r : model.TestResult,
       r ∈ model.TestResults t /\ model.TestFile r ∈ ids /\
       Name f = cleanTestName (model.TestFile r) /\
       URL f = model.URL r /\
       HistoryURL f = historyURL t (Name f) /\
       occurs "/" (Name f) = false) /\
  (forall r : model.TestResult,
     r ∈ model.TestResults t -> model.TestFile r ∈ ids ->
     failureDetail t r ∈ failedTests t (testIdSet ids)) /\
  (List.length (failedTests t (testIdSet ids))
   <= List.length (model.TestResults t))%nat.
Proof.
  rewrite failedTests_filter. split; [|split].
  - intros f Hf. apply list_elem_of_In, in_map_iff in Hf as (r & <- & Hr).
    apply List.filter_In in Hr as [Hr Hsel]. apply bool_decide_eq_true in Hsel.
    exists r. split; [now apply list_elem_of_In|]. split; [exact Hsel|].
    cbn [failureDetail Name URL HistoryURL].
    repeat split; try reflexivity. apply cleanTestName_no_slash.
  - intros r Hr Hsel. apply list_elem_of_In, in_map, List.filter_In.
    split; [now apply list_elem_of_In | now apply bool_decide_eq_true].
  - rewrite length_map. apply List.filter_length_le.
Qed.

Lemma failedTests_provenance_witness :
  let t := model.mkTask "123" "T" "V" "P"
             [model.mkTestResult "dir/foo.js" "u1"; model.mkTestResult "bar.js" "u2"] in
  failureDetail t (model.mkTestResult "bar.js" "u2")
  ∈ failedTests t (testIdSet ["bar.js"; "other.js"]).
Proof.
  intros t.
  destruct (failedTests_provenance t ["bar.js"; "other.js"]) as (_ & Hin & _).
  apply Hin.
  - apply list_elem_of_further, list_elem_of_here.
  - apply list_elem_of_here.
Defined.

Lemma filter_sublist_impl {A : Type} (P Q : A -> bool) (l : list A) :
  (forall x : A, x ∈ l -> P x = true -> Q x = true) ->
  sublist (List.filter P l) (List.filter Q l).
Proof.
  induction l as [|x l IH]; intros H; cbn [List.filter]; [constructor|].
  assert (IH' : sublist (List.filter P l) (List.filter Q l)).
  { apply IH. intros y Hy. apply H. now apply list_elem_of_further. }
  destruct (P x) eqn:HP.
  - rewrite (H x (list_elem_of_here _ _) HP). now constructor.
  - destruct (Q x); [now constructor | exact IH'].
Qed.

Lemma map_sublist {A B : Type} (f : A -> B) (l k : list A) :
  sublist l k -> sublist (map f l) (map f k).
Proof. induction 1; cbn [map]; now constructor. Qed.

(** X11. Selecting more identifiers only adds failure details: the details
    of a selection are a subsequence, in the same order, of the details of
    any larger selection. *)
Theorem failedTests_monotone (t : model.Task) (ids ids' : list string) :
  (forall id : string, id ∈ ids -> id ∈ ids') ->
  sublist (failedTests t (testIdSet ids)) (failedTests t (testIdSet ids')).
Proof.
  intros H. rewrite !failedTests_filter. apply map_sublist.
  apply filter_sublist_impl. intros r _ Hr.
  apply bool_decide_eq_true. apply bool_decide_eq_true in Hr. now apply H.
Qed.

Lemma failedTests_monotone_witness :
  let t := model.mkTask "123" "T" "V" "P"
             [model.mkTestResult "dir/foo.js" "u1"; model.mkTestResult "bar.js" "u2"] in
  sublist (failedTests t (testIdSet ["bar.js"]))
          (failedTests t (testIdSet ["dir/foo.js"; "bar.js"])).
Proof.
  intros t. apply (failedTests_monotone t ["bar.js"] ["dir/foo.js"; "bar.js"]).
  intros id Hid. now apply list_elem_of_further.
Defined.

(** X12. No failure detail is built exactly when no result of the task has
    a selected identifier, as with an empty selection; the summary is then
    the task's display name followed by [" failure"]. *)
Theorem failedTests_empty_iff (t : model.Task) (ids : list string) :
  (failedTests t (testIdSet ids) = [] <->
   forall r : model.TestResult, r ∈ model.TestResults t -> model.TestFile r ∉ ids) /\
  failedTests t (testIdSet []) = [] /\
  (failedTests t (testIdSet ids) = [] ->
   getSummary (model.DisplayName t) (failedTests t (testIdSet ids))
   = model.DisplayName t +:+ " failure").
Proof.
  assert (Hiff : forall sel : list string,
    failedTests t (testIdSet sel) = [] <->
    forall r : model.TestResult, r ∈ model.TestResults t -> model.TestFile r ∉ sel).
  { intros sel. rewrite failedTests_filter. split.
    - intros E r Hr Hsel.
      assert (Hin : In (failureDetail t r)
                      (map (failureDetail t)
                         (List.filter
                            (fun test => bool_decide (model.TestFile test ∈ sel))
                            (model.TestResults t)))).
      { apply in_map, List.filter_In.
        split; [now apply list_elem_of_In | now apply bool_decide_eq_true]. }
      rewrite E in Hin. exact Hin.
    - intros H. induction (model.TestResults t) as [|r l IH]; [reflexivity|].
      cbn [List.filter]. rewrite bool_decide_eq_false_2.
      + apply IH. intros r' Hr'. apply H. now apply list_elem_of_further.
      + apply H, list_elem_of_here. }
  split; [apply Hiff|]. split.
  - apply Hiff. intros r _. apply not_elem_of_nil.
  - intros ->. reflexivity.
Qed.

Lemma failedTests_empty_iff_witness :
  let t := model.mkTask "123" "T" "V" "P" [model.mkTestResult "dir/foo.js" "u1"] in
  getSummary (model.DisplayName t) (failedTests t (testIdSet ["foo.js"])) = "T failure".
Proof.
  intros t.
  destruct (failedTests_empty_iff t ["foo.js"]) as (_ & _ & Hsum).
  apply Hsum. reflexivity.
Defined.

(** ** The handler *)

(** The package's template renders every task, user and failure list. *)
Lemma DescriptionTemplate_renders (t : model.Task) (userId : string)
    (tests : list jiraTestFailure) :
  getDescription DescriptionTemplate t userId tests
  = Ok (nl +:+ headingLine t +:+ nl +:+ nl
        +:+ paragraphs (map testLine tests)
        +:+ nl +:+ nl +:+ nl +:+ nl +:+ attributionLine userId +:+ nl).
Proof.
  unfold getDescription, Execute, DescriptionTemplate.
  cbn [walkAll execNode evalField indirect lookupField String.eqb Ascii.eqb Bool.eqb
       printValue taskValue].
  match goal with
  | |- context [walkAll ?f (map failureValue tests)] =>
      replace (walkAll f (map failureValue tests))
        with (Ok (paragraphs (map testLine tests)))
        by (symmetry; exact (range_body_renders _ tests eq_refl))
  end.
  unfold headingLine, attributionLine, nl, UIRoot.
  f_equal. repeat (rewrite ?app_assoc_string; cbn [append ascii_of_nat ascii_of_pos
    Pos.of_succ_nat Pos.succ]). reflexivity.
Qed.

Lemma failedTests_no_match (t : model.Task) (ids : list string) :
  (forall r : model.TestResult, r ∈ model.TestResults t -> model.TestFile r ∉ ids) ->
  failedTests t (testIdSet ids) = [].
Proof.
  intros H. rewrite failedTests_filter.
  induction (model.TestResults t) as [|r l IH]; [reflexivity|].
  cbn [List.filter]. rewrite bool_decide_eq_false_2.
  - apply IH. intros r' Hr'. apply H. now apply list_elem_of_further.
  - apply H, list_elem_of_here.
Qed.

(** X13. With the package's own template the description always renders:
    once the user is known and the task found, exactly one submission is
    attempted, and the response is 200 or the 400 of a failed submission;
    the response for a rendering error is never written. *)
Theorem fileTicket_always_submits (bbp : BuildBaronPlugin) (input : ticketInput)
    (tr : list Event) (u : user.DBUser) (t : model.Task) :
  runs (fileTicket bbp DescriptionTemplate input) tr ->
  EvGetUser (Some u) ∈ tr ->
  EvFindTask (TaskId input) (Some t) None ∈ tr ->
  calls isCreateTicket tr = 1%nat /\
  (forall (status : Z) (body : Body),
     EvWriteJSON status body ∈ tr ->
     (status = http.StatusOK /\
      exists result : thirdparty.JiraCreateTicketResponse, body = BodyTicket result) \/
     (status = http.StatusBadRequest /\
      exists err : string,
        body = BodyString (Sprintf "error creating JIRA ticket: %v" [err]))).
Proof.
  intros H Hu Ht. apply fileTicket_filing in H.
  destruct H as [| | |u0 t0 err Hr|u0 t0 description err Hr|u0 t0 description result Hr];
    trace_mem.
  - rewrite DescriptionTemplate_renders in Hr. discriminate Hr.
  - split; [reflexivity|]. intros status body Hm. trace_mem.
    right. split; [reflexivity | now exists err].
  - split; [reflexivity|]. intros status body Hm. trace_mem.
    left. split; [reflexivity | now exists result].
Qed.

Lemma fileTicket_always_submits_witness :
  let bbp := mkPlugin (mkOptions "jira" "bot" "secret") in
  let input := mkInput "123" ["nothing.js"] in
  let t := model.mkTask "123" "T" "V" "P" [model.mkTestResult "bar.js" "u2"] in
  let u := user.mkDBUser "bob" in
  let w := mkWorld (Some u) (fun _ => (Some t, None)) (fun _ _ _ _ => Err "down") in
  calls isCreateTicket (run w (fileTicket bbp DescriptionTemplate input)) = 1%nat.
Proof.
  intros bbp input t u w.
  apply (fileTicket_always_submits bbp input _ u t (run_runs w _)).
  - vm_compute. apply list_elem_of_here.
  - vm_compute. apply list_elem_of_further, list_elem_of_here.
Defined.

(** X14. Whatever the template and the collaborators, the status written
    is one of 200, 400, 401, 404 and 500, and it is 200 exactly when the
    submission succeeded, the body being the created ticket. *)
Theorem fileTicket_status (bbp : BuildBaronPlugin) (tmpl : Template)
    (input : ticketInput) (tr : list Event) (status : Z) (body : Body) :
  runs (fileTicket bbp tmpl input) tr ->
  EvWriteJSON status body ∈ tr ->
  (status = http.StatusOK \/ status = http.StatusBadRequest \/
   status = http.StatusUnauthorized \/ status = http.StatusNotFound \/
   status = http.StatusInternalServerError) /\
  (status = http.StatusOK <->
   exists (host username password : string) (request : gmap string JiraValue)
          (result : thirdparty.JiraCreateTicketResponse),
     EvCreateTicket host username password request (Ok result) ∈ tr /\
     body = BodyTicket result).
Proof.
  intros H Hm. apply fileTicket_filing in H.
  destruct H as [| | | | |u t description result Hr]; trace_mem;
    (split; [tauto|]);
    try (split; [intros E; vm_compute in E; discriminate E
                |intros (h & un & pw & rq & r & Hc & _); trace_mem]).
  split; [|reflexivity]. intros _.
  eexists _, _, _, _, result. split; [|reflexivity].
  do 3 apply list_elem_of_further. apply list_elem_of_here.
Qed.

Lemma fileTicket_status_witness :
  let bbp := mkPlugin (mkOptions "jira" "bot" "secret") in
  let input := mkInput "123" ["bar.js"] in
  let w := mkWorld (Some (user.mkDBUser "bob")) (fun _ => (None, Some "db down"))
             (fun _ _ _ _ => Ok (thirdparty.mkResponse "BF-1")) in
  (500 = http.StatusOK \/ 500 = http.StatusBadRequest \/
   500 = http.StatusUnauthorized \/ 500 = http.StatusNotFound \/
   500 = http.StatusInternalServerError).
Proof.
  intros bbp input w.
  apply (fileTicket_status bbp DescriptionTemplate input _ 500 (BodyString "db down")
           (run_runs w _)).
  vm_compute. do 2 apply list_elem_of_further. apply list_elem_of_here.
Defined.

(** X15. An error is logged exactly when the submission failed: the logged
    message names the collaborator's error and is also the body of the 400
    response. *)
Theorem fileTicket_error_logged (bbp : BuildBaronPlugin) (tmpl : Template)
    (input : ticketInput) (tr : list Event) :
  runs (fileTicket bbp tmpl input) tr ->
  (forall msg : string,
     EvLogf slogger.ERROR msg ∈ tr ->
     exists (host username password : string) (request : gmap string JiraValue)
            (err : string),
       EvCreateTicket host username password request (Err err) ∈ tr /\
       msg = Sprintf "error creating JIRA ticket: %v" [err] /\
       EvWriteJSON http.StatusBadRequest (BodyString msg) ∈ tr) /\
  (forall (host username password : string) (request : gmap string JiraValue)
          (err : string),
     EvCreateTicket host username password request (Err err) ∈ tr ->
     EvLogf slogger.ERROR (Sprintf "error creating JIRA ticket: %v" [err]) ∈ tr).
Proof.
  intros H. apply fileTicket_filing in H. split.
  - intros msg Hm.
    destruct H as [| | | |u t description err Hr|]; trace_mem.
    eexists _, _, _, _, err. split; [|split; [reflexivity|]].
    + do 3 apply list_elem_of_further. apply list_elem_of_here.
    + do 5 apply list_elem_of_further. apply list_elem_of_here.
  - intros h un pw rq err0 Hm.
    destruct H as [| | | |u t description err Hr|]; trace_mem.
    do 4 apply list_elem_of_further. apply list_elem_of_here.
Qed.

Lemma fileTicket_error_logged_witness :
  let bbp := mkPlugin (mkOptions "jira" "bot" "secret") in
  let input := mkInput "123" ["bar.js"] in
  let t := model.mkTask "123" "T" "V" "P" [model.mkTestResult "bar.js" "u2"] in
  let w := mkWorld (Some (user.mkDBUser "bob")) (fun _ => (Some t, None))
             (fun _ _ _ _ => Err "down") in
  exists (host username password : string) (request : gmap string JiraValue)
         (err : string),
    EvCreateTicket host username password request (Err err)
    ∈ run w (fileTicket bbp DescriptionTemplate input) /\
    "error creating JIRA ticket: down" = Sprintf "error creating JIRA ticket: %v" [err] /\
    EvWriteJSON http.StatusBadRequest (BodyString "error creating JIRA ticket: down")
    ∈ run w (fileTicket bbp DescriptionTemplate input).
Proof.
  intros bbp input t w.
  destruct (fileTicket_error_logged bbp DescriptionTemplate input _ (run_runs w _))
    as [Hlog _].
  apply (Hlog "error creating JIRA ticket: down").
  vm_compute. do 4 apply list_elem_of_further. apply list_elem_of_here.
Defined.

(** X16. The handler does not reject a selection that matches no result of
    the task (an empty selection included): with the package's template it
    still submits a ticket, whose summary is the display name followed by
    [" failure"] and whose description holds the heading and the
    attribution without any test line. *)
Theorem fileTicket_unmatched_selection (bbp : BuildBaronPlugin) (input : ticketInput)
    (tr : list Event) (u : user.DBUser) (t : model.Task) :
  runs (fileTicket bbp DescriptionTemplate input) tr ->
  EvGetUser (Some u) ∈ tr ->
  EvFindTask (TaskId input) (Some t) None ∈ tr ->
  (forall r : model.TestResult,
     r ∈ model.TestResults t -> model.TestFile r ∉ TestIds input) ->
  exists res : result thirdparty.JiraCreateTicketResponse,
    EvCreateTicket (Host (opts bbp)) (Username (opts bbp)) (Password (opts bbp))
      (list_to_map
         (ticketFields t u (model.DisplayName t +:+ " failure")
            (nl +:+ headingLine t +:+ nl +:+ nl +:+ nl +:+ nl +:+ nl +:+ nl
             +:+ attributionLine (user.Id u) +:+ nl)))
      res
    ∈ tr.
Proof.
  intros H Hu Ht Hnone. apply fileTicket_filing in H.
  destruct H as [| | |u0 t0 err Hr|u0 t0 description err Hr|u0 t0 description result Hr];
    trace_mem;
    rewrite (failedTests_no_match _ _ Hnone) in *;
    rewrite DescriptionTemplate_renders in Hr;
    try discriminate Hr; injection Hr as <-.
  - exists (Err err). do 3 apply list_elem_of_further. apply list_elem_of_here.
  - exists (Ok result). do 3 apply list_elem_of_further. apply list_elem_of_here.
Qed.

Lemma fileTicket_unmatched_selection_witness :
  let bbp := mkPlugin (mkOptions "jira" "bot" "secret") in
  let input := mkInput "123" [] in
  let t := model.mkTask "123" "T" "V" "P" [model.mkTestResult "bar.js" "u2"] in
  let u := user.mkDBUser "bob" in
  let w := mkWorld (Some u) (fun _ => (Some t, None))
             (fun _ _ _ _ => Ok (thirdparty.mkResponse "BF-1")) in
  exists res : result thirdparty.JiraCreateTicketResponse,
    EvCreateTicket "jira" "bot" "secret"
      (list_to_map
         (ticketFields t u "T failure"
            (nl +:+ headingLine t +:+ nl +:+ nl +:+ nl +:+ nl +:+ nl +:+ nl
             +:+ attributionLine "bob" +:+ nl)))
      res
    ∈ run w (fileTicket bbp DescriptionTemplate input).
Proof.
  intros bbp input t u w.
  apply (fileTicket_unmatched_selection bbp input _ u t (run_runs w _)).
  - vm_compute. apply list_elem_of_here.
  - vm_compute. apply list_elem_of_further, list_elem_of_here.
  - intros r _. apply not_elem_of_nil.
Defined.
